(** * The Alipay checkout simulator (server.js): model and properties

    A shallow embedding of the Express handlers of [server.js].  The two
    [Map]s of the program, the order objects they point to, the pending
    [setTimeout] callbacks and the two ambient sources [Math.random] and
    [Date.now] are explicit in a [World]; each handler is a computation in a
    small state monad over it.  JS numbers are rationals; the delays are
    computed with a rounding after each operation, which the handlers take
    as a parameter, and the quotient of the statistics is kept exact. *)

From Stdlib Require Import Ascii String QArith Qround Lqa.
From stdpp Require Import gmap strings list fin_maps pretty.

(** ** JavaScript values carried by a request body *)

#[local] Unset Elimination Schemes.
Inductive JsVal : Type :=
  | JUndefined
  | JNull
  | JBool (b : bool)
  | JNum (q : Q)
  | JStr (s : string)
  | JArr (items : list JsVal)
  | JObj (fields : list (string * JsVal)).
#[local] Set Elimination Schemes.

(** ToBoolean: [undefined], [null], [false], [0] and [''] are falsy. *)
Definition truthy (v : JsVal) : bool :=
  match v with
  | JUndefined | JNull => false
  | JBool b => b
  | JNum q => negb (Qeq_bool q 0)
  | JStr s => negb (String.eqb s "")
  | JArr _ | JObj _ => true
  end.

(** [a || b] *)
Definition js_or (a b : JsVal) : JsVal := if truthy a then a else b.

(** [v === s] for a string literal [s]. *)
Definition strict_eq_str (v : JsVal) (s : string) : bool :=
  match v with
  | JStr s' => String.eqb s' s
  | _ => false
  end.

(** [a < b] on numbers. *)
Definition Qltb (a b : Q) : bool := negb (Qle_bool b a).

(** ** Records of the two stores *)

(** The string produced by [new Date().toISOString()], kept as the instant
    it renders. *)
Inductive DateString : Type := ISO (epoch_ms : Z).

Inductive Status : Type := pending | success.

Definition Status_to_string (s : Status) : string :=
  match s with pending => "pending" | success => "success" end.

Module Order.
Record t : Type := mk {
  orderId : string;
  amount : JsVal;
  subject : JsVal;
  bankCard : JsVal;
  bankName : string;
  status : Status;
  createTime : DateString;
  payTime : option DateString
}.
End Order.

Module Payment.
Record t : Type := mk {
  paymentId : string;
  orderId : string;
  amount : JsVal;
  status : Status;
  payTime : option DateString
}.
End Payment.

(** ** Responses *)

Inductive Data : Type :=
  | DataOrder (o : Order.t)
  | DataPayment (p : Payment.t)
  | DataQuery (orderId : string) (status : Status) (amount : JsVal)
              (payTime : option DateString)
  | DataSecurity (deviceCheck : bool) (riskLevel : string)
  | DataNull.

Inductive Response : Type :=
  | Envelope (http_status : Z) (ok : bool) (code : Z)
             (message : option string) (data : option Data)
  | StatsBody (totalOrders totalPayments : nat) (successRate : Q).

(** ** The world the handlers run in *)

(** Order objects live in a heap and are referred to by their address: the
    [orders] map, the closures passed to [setTimeout] and the response under
    construction all share the one object. *)
Abbreviation ref := nat (only parsing).

(** The closures given to [setTimeout], with the variables they capture. *)
Inductive Callback : Type :=
  | CreateReply (order : ref)
  | InfoReply (order : ref)
  | ValidateReply (order : ref) (orderId : string)
                  (randomFail isValidPassword : bool)
  | QueryReply (order : ref)
  | SecurityReply.

Record World : Type := mkWorld {
  heap : list Order.t;
  orders : gmap string ref;
  payments : gmap string Payment.t;
  timers : list (Q * Callback);
  random_ix : nat;
  clock_ix : nat
}.

Definition empty_world : World :=
  {| heap := []; orders := ∅; payments := ∅; timers := [];
     random_ix := 0; clock_ix := 0 |}.

Definition with_heap (h : list Order.t) (w : World) : World :=
  {| heap := h; orders := orders w; payments := payments w;
     timers := timers w; random_ix := random_ix w; clock_ix := clock_ix w |}.

Definition with_orders (m : gmap string ref) (w : World) : World :=
  {| heap := heap w; orders := m; payments := payments w;
     timers := timers w; random_ix := random_ix w; clock_ix := clock_ix w |}.

Definition with_payments (m : gmap string Payment.t) (w : World) : World :=
  {| heap := heap w; orders := orders w; payments := m;
     timers := timers w; random_ix := random_ix w; clock_ix := clock_ix w |}.

Definition with_timers (t : list (Q * Callback)) (w : World) : World :=
  {| heap := heap w; orders := orders w; payments := payments w;
     timers := t; random_ix := random_ix w; clock_ix := clock_ix w |}.

Definition with_random_ix (n : nat) (w : World) : World :=
  {| heap := heap w; orders := orders w; payments := payments w;
     timers := timers w; random_ix := n; clock_ix := clock_ix w |}.

Definition with_clock_ix (n : nat) (w : World) : World :=
  {| heap := heap w; orders := orders w; payments := payments w;
     timers := timers w; random_ix := random_ix w; clock_ix := n |}.

(** ** The handler monad *)

Definition M (A : Type) : Type := World -> A * World.

Definition ret {A} (a : A) : M A := fun w => (a, w).

Definition bind {A B} (c : M A) (k : A -> M B) : M B :=
  fun w => let (a, w') := c w in k a w'.

Notation "x <- c1 ;; c2" := (bind c1 (fun x => c2))
  (at level 100, c1 at next level, right associativity).
Notation "c1 ;; c2" := (bind c1 (fun _ => c2))
  (at level 100, right associativity).

(** ** Base-36 rendering of [Math.random()] *)

Definition digit36 (d : Z) : ascii :=
  if (d <? 10)%Z then ascii_of_N (Z.to_N (48 + d))
  else ascii_of_N (Z.to_N (87 + d)).

(** The first [n] fractional digits of [r] in radix 36; the expansion stops
    when nothing is left, as [toString(36)] prints no trailing zeros.  The
    digits are those of the exact expansion: an engine that prints only as
    many digits as identify the double may print fewer, or a last digit
    rounded up.  The properties below use the digits as a function of the
    number and do not depend on which digits they are. *)
Fixpoint frac36 (n : nat) (r : Q) : string :=
  match n with
  | O => ""
  | S n' =>
      if Qeq_bool r 0 then ""
      else let x := Qred (r * 36) in
           let d := Qfloor x in
           String (digit36 d) (frac36 n' (Qred (x - inject_Z d)))
  end.

(** [r.toString(36).substr(2, 9)] for [0 <= r < 1]: the text is ["0"] for
    zero and ["0."] followed by the digits otherwise, so what is left after
    the first two characters is at most nine digits. *)
Definition toString36_substr_2_9 (r : Q) : string := frac36 9 r.

(** ** Field assignments on an order object *)

Definition set_status (s : Status) (o : Order.t) : Order.t :=
  {| Order.orderId := Order.orderId o; Order.amount := Order.amount o;
     Order.subject := Order.subject o; Order.bankCard := Order.bankCard o;
     Order.bankName := Order.bankName o; Order.status := s;
     Order.createTime := Order.createTime o;
     Order.payTime := Order.payTime o |}.

Definition set_payTime (t : DateString) (o : Order.t) : Order.t :=
  {| Order.orderId := Order.orderId o; Order.amount := Order.amount o;
     Order.subject := Order.subject o; Order.bankCard := Order.bankCard o;
     Order.bankName := Order.bankName o; Order.status := Order.status o;
     Order.createTime := Order.createTime o;
     Order.payTime := Some t |}.

(** ** Requests and the fixed response envelopes *)

Inductive Request : Type :=
  | POST_payment_create (amount subject bankCard : JsVal)
  | GET_payment_info (orderId : string)
  | POST_payment_validate (orderId password : JsVal)
  | GET_payment_query (orderId : string)
  | GET_security_check
  | GET_stats.

Definition default_amount : JsVal := JNum 579.
Definition default_subject : JsVal :=
  JStr "罗技大师系列MX Master 3s无线蓝牙双模鼠标".
Definition default_bankCard : JsVal := JStr "****7061".
Definition fixed_bankName : string := "中国建设银行".

Definition not_found : Response :=
  Envelope 404 false 404 (Some "订单不存在") None.

Definition wrong_password : Response :=
  Envelope 200 false 1001 (Some "支付密码错误") (Some DataNull).

Definition json_ok (message : option string) (d : Data) : Response :=
  Envelope 200 true 0 message (Some d).

Section Server.

(** The successive results of [Math.random()] and the successive readings
    of the clock, in the order the process asks for them. *)
Variable Math_random_src : nat -> Q.
Variable Date_now_src : nat -> Z.

(** The rounding of the exact result of a multiplication or an addition to
    the double that the operator returns.  The handlers are written for any
    rounding; what a property needs of it is a hypothesis of that property. *)
Variable fl : Q -> Q.

Definition Math_random : M Q := fun w =>
  (Math_random_src (random_ix w), with_random_ix (S (random_ix w)) w).

Definition Date_now : M Z := fun w =>
  (Date_now_src (clock_ix w), with_clock_ix (S (clock_ix w)) w).

Definition new_Date_toISOString : M DateString :=
  t <- Date_now ;; ret (ISO t).

(** An object literal allocates a new object. *)
Definition new_object (o : Order.t) : M ref := fun w =>
  (length (heap w), with_heap (heap w ++ [o]) w).

Definition deref (r : ref) : M (option Order.t) := fun w =>
  (heap w !! r, w).

Definition assign (r : ref) (f : Order.t -> Order.t) : M unit := fun w =>
  (tt, with_heap (alter f r (heap w)) w).

(** [orders.get(k)]: every key of the map is a string, so a key of another
    type finds nothing. *)
Definition orders_get (k : JsVal) : M (option ref) := fun w =>
  (match k with JStr s => orders w !! s | _ => None end, w).

Definition orders_set (k : string) (r : ref) : M unit := fun w =>
  (tt, with_orders (<[k := r]> (orders w)) w).

Definition payments_set (k : string) (p : Payment.t) : M unit := fun w =>
  (tt, with_payments (<[k := p]> (payments w)) w).

Definition setTimeout (cb : Callback) (delay : Q) : M unit := fun w =>
  (tt, with_timers (timers w ++ [(delay, cb)]) w).

(** *** The handlers, up to their [setTimeout] *)

Definition generateOrderId : M string :=
  now <- Date_now ;;
  r <- Math_random ;;
  ret ("ORDER" +:+ pretty now +:+ toString36_substr_2_9 r).

Definition payment_create (amount subject bankCard : JsVal)
  : M (option Response) :=
  orderId <- generateOrderId ;;
  createTime <- new_Date_toISOString ;;
  order <- new_object
    {| Order.orderId := orderId;
       Order.amount := js_or amount default_amount;
       Order.subject := js_or subject default_subject;
       Order.bankCard := js_or bankCard default_bankCard;
       Order.bankName := fixed_bankName;
       Order.status := pending;
       Order.createTime := createTime;
       Order.payTime := None |} ;;
  orders_set orderId order ;;
  r <- Math_random ;;
  let delay := fl (fl (r * 150) + 50)%Q in
  setTimeout (CreateReply order) delay ;;
  ret None.

Definition payment_info (orderId : string) : M (option Response) :=
  order <- orders_get (JStr orderId) ;;
  match order with
  | None => ret (Some not_found)
  | Some order =>
      r <- Math_random ;;
      let delay := fl (fl (r * 100) + 30)%Q in
      setTimeout (InfoReply order) delay ;;
      ret None
  end.

(** A key that finds an order is a string ([orders_get]); the callback and
    the payment record keep it as such. *)
Definition payment_validate (orderId password : JsVal)
  : M (option Response) :=
  order <- orders_get orderId ;;
  match order, orderId with
  | Some order, JStr orderId =>
      let isValidPassword := strict_eq_str password "123456" in
      r <- Math_random ;;
      let randomFail := Qltb r (5 # 100) in
      r' <- Math_random ;;
      let delay := fl (fl (r' * 400) + 100)%Q in
      setTimeout (ValidateReply order orderId randomFail isValidPassword)
                 delay ;;
      ret None
  | _, _ => ret (Some not_found)
  end.

Definition payment_query (orderId : string) : M (option Response) :=
  order <- orders_get (JStr orderId) ;;
  match order with
  | None => ret (Some not_found)
  | Some order =>
      r <- Math_random ;;
      let delay := fl (fl (r * 80) + 20)%Q in
      setTimeout (QueryReply order) delay ;;
      ret None
  end.

Definition security_check : M (option Response) :=
  r <- Math_random ;;
  let delay := fl (fl (r * 50) + 10)%Q in
  setTimeout SecurityReply delay ;;
  ret None.

Definition stats : M (option Response) := fun w =>
  let totalOrders := size (orders w) in
  let totalPayments := size (payments w) in
  (Some (StatsBody totalOrders totalPayments
           (inject_Z (Z.of_nat totalPayments)
            / inject_Z (Z.of_nat (Nat.max totalOrders 1)))), w).

Definition handle (req : Request) : M (option Response) :=
  match req with
  | POST_payment_create amount subject bankCard =>
      payment_create amount subject bankCard
  | GET_payment_info orderId => payment_info orderId
  | POST_payment_validate orderId password =>
      payment_validate orderId password
  | GET_payment_query orderId => payment_query orderId
  | GET_security_check => security_check
  | GET_stats => stats
  end.

(** *** The bodies of the [setTimeout] callbacks *)

(** [res.json] serialises the object when the callback runs. *)
Definition reply_with_order (message : option string) (order : ref)
  : M (option Response) :=
  o <- deref order ;;
  ret (json_ok message ∘ DataOrder <$> o).

(** The callback writes to the object it captured, whether or not the
    [orders] map still points to it.  A captured reference always points to
    an object ([refs_valid] below); the [None] branch is for a reference
    that does not. *)
Definition validate_callback (order : ref) (orderId : string)
    (randomFail isValidPassword : bool) : M (option Response) :=
  if randomFail || negb isValidPassword then ret (Some wrong_password)
  else
    assign order (set_status success) ;;
    t <- new_Date_toISOString ;;
    assign order (set_payTime t) ;;
    now <- Date_now ;;
    o <- deref order ;;
    match o with
    | None => ret None
    | Some o =>
        let payment :=
          {| Payment.paymentId := "PAY" +:+ pretty now;
             Payment.orderId := orderId;
             Payment.amount := Order.amount o;
             Payment.status := success;
             Payment.payTime := Order.payTime o |} in
        payments_set (Payment.paymentId payment) payment ;;
        ret (Some (json_ok (Some "支付成功") (DataPayment payment)))
    end.

Definition query_callback (order : ref) : M (option Response) :=
  o <- deref order ;;
  ret ((fun o => json_ok None
          (DataQuery (Order.orderId o) (Order.status o) (Order.amount o)
                     (Order.payTime o))) <$> o).

Definition run_callback (cb : Callback) : M (option Response) :=
  match cb with
  | CreateReply order => reply_with_order (Some "订单创建成功") order
  | InfoReply order => reply_with_order None order
  | ValidateReply order orderId randomFail isValidPassword =>
      validate_callback order orderId randomFail isValidPassword
  | QueryReply order => query_callback order
  | SecurityReply =>
      ret (Some (json_ok (Some "安全设置检测成功！")
                   (DataSecurity true "low")))
  end.

(** *** The event loop *)

Inductive Event : Type :=
  | Incoming (req : Request)
  | TimerFires (i : nat).

Definition step (e : Event) : M (option Response) :=
  match e with
  | Incoming req => handle req
  | TimerFires i => fun w =>
      match timers w !! i with
      | None => (None, w)
      | Some (_, cb) => run_callback cb (with_timers (delete i (timers w)) w)
      end
  end.

Fixpoint run (es : list Event) (w : World) : World :=
  match es with
  | [] => w
  | e :: es' => run es' (snd (step e w))
  end.

(** A request served to its end: the handler, then, if it only scheduled
    its reply, the callback it has just scheduled. *)
Definition call (req : Request) : M (option Response) :=
  r <- handle req ;;
  match r with
  | Some resp => ret (Some resp)
  | None => fun w => step (TimerFires (pred (length (timers w)))) w
  end.

Definition CreateOrder (amount subject bankCard : JsVal) :=
  call (POST_payment_create amount subject bankCard).
Definition GetOrderInfo (orderId : string) :=
  call (GET_payment_info orderId).
Definition ValidateCredential (orderId password : JsVal) :=
  call (POST_payment_validate orderId password).
Definition QueryResult (orderId : string) :=
  call (GET_payment_query orderId).
Definition SecurityCheck := call GET_security_check.
Definition Stats := call GET_stats.

End Server.

(** * Vocabulary of the properties *)

(** A key under which no order is stored. *)
Definition unknown (k : JsVal) (w : World) : Prop :=
  forall s, k = JStr s -> orders w !! s = None.

(** Order [o] is stored under [s], at address [l]. *)
Definition stored (w : World) (s : string) (l : ref) (o : Order.t) : Prop :=
  orders w !! s = Some l /\ heap w !! l = Some o.

(** The order after an accepted validation at instant [t]. *)
Definition settle (t : DateString) (o : Order.t) : Order.t :=
  set_payTime t (set_status success o).

(** Both stores, and the objects they hold, are the same in [w] and [w']. *)
Definition same_stores (w w' : World) : Prop :=
  heap w' = heap w /\ orders w' = orders w /\ payments w' = payments w.

(** A callback is an accepted validation when neither the random failure
    nor a password mismatch was recorded for it. *)
Definition accepting (cb : Callback) : bool :=
  match cb with
  | ValidateReply _ _ randomFail isValidPassword =>
      negb (randomFail || negb isValidPassword)
  | _ => false
  end.

(** The order object a callback holds on to, if any. *)
Definition captured (cb : Callback) : option ref :=
  match cb with
  | CreateReply l | InfoReply l | QueryReply l | ValidateReply l _ _ _ => Some l
  | SecurityReply => None
  end.

(** ** What a step of the event loop does to the world *)

Section Semantics.

Variable rnd : nat -> Q.
Variable clk : nat -> Z.
Variable fl : Q -> Q.

(** The payment identifier that a callback running in [w] builds. *)
Definition next_paymentId (w : World) : string :=
  "PAY" +:+ pretty (clk (S (clock_ix w))).

(** The order identifier that [payment_create] running in [w] builds. *)
Definition next_orderId (w : World) : string :=
  fst (generateOrderId rnd clk w).

Inductive Effect : Event -> World -> World -> Prop :=
  | Eff_create a s b w o d ri ci :
      Order.orderId o = next_orderId w ->
      Order.status o = pending ->
      Order.payTime o = None ->
      Effect (Incoming (POST_payment_create a s b)) w
        {| heap := heap w ++ [o];
           orders := <[Order.orderId o := length (heap w)]> (orders w);
           payments := payments w;
           timers := timers w ++ [(d, CreateReply (length (heap w)))];
           random_ix := ri; clock_ix := ci |}
  | Eff_schedule req w d cb ri :
      (forall l, captured cb = Some l ->
                 exists id, orders w !! id = Some l) ->
      (forall l id rf ok, cb = ValidateReply l id rf ok ->
                          orders w !! id = Some l) ->
      Effect (Incoming req) w
        {| heap := heap w; orders := orders w; payments := payments w;
           timers := timers w ++ [(d, cb)];
           random_ix := ri; clock_ix := clock_ix w |}
  | Eff_answer req w :
      Effect (Incoming req) w w
  | Eff_no_timer i w :
      timers w !! i = None ->
      Effect (TimerFires i) w w
  | Eff_reply i w d cb :
      timers w !! i = Some (d, cb) ->
      accepting cb = false ->
      Effect (TimerFires i) w
        {| heap := heap w; orders := orders w; payments := payments w;
           timers := delete i (timers w);
           random_ix := random_ix w; clock_ix := clock_ix w |}
  | Eff_settle i w d l id o :
      timers w !! i = Some (d, ValidateReply l id false true) ->
      heap w !! l = Some o ->
      let t := ISO (clk (clock_ix w)) in
      let p := {| Payment.paymentId := next_paymentId w;
                  Payment.orderId := id;
                  Payment.amount := Order.amount o;
                  Payment.status := success;
                  Payment.payTime := Some t |} in
      Effect (TimerFires i) w
        {| heap := <[l := settle t o]> (heap w);
           orders := orders w;
           payments := <[next_paymentId w := p]> (payments w);
           timers := delete i (timers w);
           random_ix := random_ix w; clock_ix := S (S (clock_ix w)) |}
  | Eff_dangling i w d l id :
      timers w !! i = Some (d, ValidateReply l id false true) ->
      heap w !! l = None ->
      Effect (TimerFires i) w
        {| heap := heap w; orders := orders w; payments := payments w;
           timers := delete i (timers w);
           random_ix := random_ix w; clock_ix := S (S (clock_ix w)) |}.

(** A step generates a fresh identifier when the key it is about to write
    into a store is not a key of that store yet. *)
Definition fresh_step (e : Event) (w : World) : bool :=
  match e with
  | Incoming (POST_payment_create _ _ _) =>
      bool_decide (orders w !! next_orderId w = None)
  | Incoming _ => true
  | TimerFires i =>
      match timers w !! i with
      | Some (_, cb) =>
          negb (accepting cb)
          || bool_decide (payments w !! next_paymentId w = None)
      | None => true
      end
  end.

Fixpoint fresh_run (es : list Event) (w : World) : bool :=
  match es with
  | [] => true
  | e :: es' => fresh_step e w && fresh_run es' (snd (step rnd clk fl e w))
  end.

(** The key was built from a clock reading and a random number that the
    process has asked for before. *)
Definition generated_before (w : World) (k : string) : Prop :=
  exists i j, i < clock_ix w /\ j < random_ix w
              /\ k = "ORDER" +:+ pretty (clk i)
                      +:+ toString36_substr_2_9 (rnd j).

Definition keys_generated (w : World) : Prop :=
  forall k, is_Some (orders w !! k) -> generated_before w k.

(** The event runs the callback of an accepted validation on an order
    whose status is [success] already. *)
Definition resettles (e : Event) (w : World) : bool :=
  match e with
  | TimerFires i =>
      match timers w !! i with
      | Some (_, ValidateReply l _ randomFail isValidPassword) =>
          negb (randomFail || negb isValidPassword)
          && match heap w !! l with
             | Some o =>
                 match Order.status o with success => true | pending => false end
             | None => false
             end
      | _ => false
      end
  | Incoming _ => false
  end.

(** No event of the run does so. *)
Fixpoint settles_once_run (es : list Event) (w : World) : bool :=
  match es with
  | [] => true
  | e :: es' =>
      negb (resettles e w) && settles_once_run es' (snd (step rnd clk fl e w))
  end.

End Semantics.

(** ** Invariants of the world *)

(** Every reference held by the order map or by a pending callback points
    to an order object, and an object reached under a key carries that key
    as its [orderId]. *)
Definition refs_valid (w : World) : Prop :=
  (forall id l, orders w !! id = Some l ->
                exists o, heap w !! l = Some o /\ Order.orderId o = id)
  /\ Forall (fun t => forall l, captured (snd t) = Some l ->
                                is_Some (heap w !! l)) (timers w).

(** [payTime] is present exactly on the orders whose status is [success]. *)
Definition payTime_iff_success (o : Order.t) : Prop :=
  is_Some (Order.payTime o) <-> Order.status o = success.

(** No payment and no order object exists while the order map is empty. *)
Definition nothing_without_orders (w : World) : Prop :=
  (heap w = [] -> orders w = ∅ /\ payments w = ∅)
  /\ (orders w = ∅ -> heap w = []).

Definition well_formed (w : World) : Prop :=
  refs_valid w
  /\ Forall payTime_iff_success (heap w)
  /\ nothing_without_orders w.

(** ** Payments against orders *)

(** A payment record exists for a stored order exactly when the order has
    status [success]. *)
Definition payment_iff_success (w : World) : Prop :=
  forall id l o, stored w id l o ->
    (exists pid p, payments w !! pid = Some p /\ Payment.orderId p = id)
    <-> Order.status o = success.

(** No two payment records refer to the same order. *)
Definition at_most_one_payment (w : World) : Prop :=
  forall pid1 pid2 p1 p2,
    payments w !! pid1 = Some p1 -> payments w !! pid2 = Some p2 ->
    Payment.orderId p1 = Payment.orderId p2 -> pid1 = pid2.

(** Every payment record refers to a stored order with status [success]. *)
Definition payments_settled (w : World) : Prop :=
  forall pid p, payments w !! pid = Some p ->
    exists l o, stored w (Payment.orderId p) l o
                /\ Order.status o = success.

(** Every stored order with status [success] has a payment record. *)
Definition settled_paid (w : World) : Prop :=
  forall id l o, stored w id l o -> Order.status o = success ->
    exists pid p, payments w !! pid = Some p /\ Payment.orderId p = id.

(** A pending validation callback holds the object stored under its key. *)
Definition validations_current (w : World) : Prop :=
  Forall (fun t => forall l id rf ok, snd t = ValidateReply l id rf ok ->
                                      orders w !! id = Some l) (timers w).

Definition consistent (w : World) : Prop :=
  refs_valid w /\ validations_current w /\ payments_settled w
  /\ settled_paid w.

(** ** Delays *)

(** The range of the delay of each operation, in milliseconds, as
    documented; [Stats] answers without delay. *)
Definition documented_delay_range (req : Request) : option (Q * Q) :=
  match req with
  | POST_payment_create _ _ _ => Some (50, 200)%Q
  | GET_payment_info _ => Some (30, 130)%Q
  | POST_payment_validate _ _ => Some (100, 500)%Q
  | GET_payment_query _ => Some (20, 100)%Q
  | GET_security_check => Some (10, 60)%Q
  | GET_stats => None
  end.

(** The requests whose reply is delayed: every [CreateOrder] and
    [SecurityCheck], and the three operations on an order when the order is
    found. *)
Definition delayed (req : Request) (w : World) : Prop :=
  match req with
  | POST_payment_create _ _ _ | GET_security_check => True
  | GET_payment_info s | GET_payment_query s => is_Some (orders w !! s)
  | POST_payment_validate k _ =>
      exists s, k = JStr s /\ is_Some (orders w !! s)
  | GET_stats => False
  end.

(** ** Sample inputs *)

Definition half_random : nat -> Q := fun _ => 1 # 2.

(** The rounding that changes nothing.  With the random number 1/2 every
    product and sum of the handlers is an integer, which no rounding to a
    double changes. *)
Definition no_rounding : Q -> Q := fun q => q.

Definition ticking_clock : nat -> Z :=
  fun n => (1700000000000 + Z.of_nat n)%Z.

Definition frozen_clock : nat -> Z := fun _ => 1700000000000%Z.

(** The world after one order for 100 has been created. *)
Definition one_order : World :=
  snd (CreateOrder half_random ticking_clock no_rounding (JNum 100) JUndefined JUndefined
         empty_world).

(** One order created, then validated twice with the right password, each
    request served to its end before the next arrives. *)
Definition settled_twice : list Event :=
  [ Incoming (POST_payment_create (JNum 100) JUndefined JUndefined);
    TimerFires 0;
    Incoming (POST_payment_validate (JStr "ORDER1700000000000i")
                                    (JStr "123456"));
    TimerFires 0;
    Incoming (POST_payment_validate (JStr "ORDER1700000000000i")
                                    (JStr "123456"));
    TimerFires 0 ].

(** One order created, then validated once with the right password. *)
Definition settled_once : list Event :=
  [ Incoming (POST_payment_create (JNum 100) JUndefined JUndefined);
    TimerFires 0;
    Incoming (POST_payment_validate (JStr "ORDER1700000000000i")
                                    (JStr "123456"));
    TimerFires 0 ].

Definition shrinking_random : nat -> Q :=
  fun n => 1 # Pos.of_nat (2 + n).

(** Two orders created and both validated with the right password, all
    within one reading of the clock. *)
Definition two_orders_one_instant : list Event :=
  [ Incoming (POST_payment_create (JNum 1) JUndefined JUndefined);
    TimerFires 0;
    Incoming (POST_payment_create (JNum 2) JUndefined JUndefined);
    TimerFires 0;
    Incoming (POST_payment_validate (JStr "ORDER1700000000000i")
                                    (JStr "123456"));
    TimerFires 0;
    Incoming (POST_payment_validate (JStr "ORDER17000000000009")
                                    (JStr "123456"));
    TimerFires 0 ].

(** ** Further vocabulary *)

(** Object [o'] is a later state of object [o]: the fields written at
    creation are the same, a [success] stays one and a [payTime] stays
    present. *)
Definition later_state (o o' : Order.t) : Prop :=
  Order.orderId o' = Order.orderId o
  /\ Order.amount o' = Order.amount o
  /\ Order.subject o' = Order.subject o
  /\ Order.bankCard o' = Order.bankCard o
  /\ Order.bankName o' = Order.bankName o
  /\ Order.createTime o' = Order.createTime o
  /\ (Order.status o = success -> Order.status o' = success)
  /\ (is_Some (Order.payTime o) -> is_Some (Order.payTime o')).

(** What holds of the payment record [p] stored under [pid] in [w]. *)
Definition payment_record_ok (w : World) (pid : string) (p : Payment.t)
  : Prop :=
  Payment.paymentId p = pid
  /\ Payment.status p = success
  /\ is_Some (Payment.payTime p)
  /\ is_Some (orders w !! Payment.orderId p)
  /\ exists l o, heap w !! l = Some o
                 /\ Order.orderId o = Payment.orderId p
                 /\ Order.status o = success
                 /\ Order.amount o = Payment.amount p.

(** A pending validation callback holds an object created under its key,
    and the key is still in the order map. *)
Definition validations_known (w : World) : Prop :=
  Forall (fun t => forall l id rf ok, snd t = ValidateReply l id rf ok ->
            is_Some (orders w !! id)
            /\ exists o, heap w !! l = Some o /\ Order.orderId o = id)
         (timers w).

(** The three envelopes, and the body of the statistics. *)
Definition envelope_shape (r : Response) : Prop :=
  match r with
  | Envelope http ok code message data =>
      (http = 200%Z /\ ok = true /\ code = 0%Z
       /\ exists d, data = Some d /\ d <> DataNull)
      \/ (http = 200%Z /\ ok = false /\ code = 1001%Z
          /\ data = Some DataNull)
      \/ (http = 404%Z /\ ok = false /\ code = 404%Z /\ data = None)
  | StatsBody _ _ _ => True
  end.

Definition is_create (e : Event) : bool :=
  match e with
  | Incoming (POST_payment_create _ _ _) => true
  | _ => false
  end.

(** The event runs the callback of an accepted validation. *)
Definition is_settlement (e : Event) (w : World) : bool :=
  match e with
  | TimerFires i =>
      match timers w !! i with
      | Some (_, cb) => accepting cb
      | None => false
      end
  | Incoming _ => false
  end.

Fixpoint created_count (es : list Event) : nat :=
  match es with
  | [] => 0
  | e :: es' => (if is_create e then 1 else 0) + created_count es'
  end.

Section Counting.

Variable rnd : nat -> Q.
Variable clk : nat -> Z.
Variable fl : Q -> Q.

Fixpoint settled_count (es : list Event) (w : World) : nat :=
  match es with
  | [] => 0
  | e :: es' =>
      (if is_settlement e w then 1 else 0)
      + settled_count es' (snd (step rnd clk fl e w))
  end.

End Counting.

(** * Properties *)

(** ** Auxiliary facts on lists, strings and numbers *)

Lemma lookup_last_snoc {A} (l : list A) (x : A) :
  (l ++ [x]) !! pred (length (l ++ [x])) = Some x.
Proof.
  rewrite length_app, Nat.add_1_r. simpl.
  rewrite lookup_app_r by lia. now rewrite Nat.sub_diag.
Qed.

Lemma delete_last_snoc {A} (l : list A) (x : A) :
  delete (pred (length (l ++ [x]))) (l ++ [x]) = l.
Proof.
  rewrite length_app, Nat.add_1_r. simpl.
  rewrite delete_middle. apply app_nil_r.
Qed.

Lemma string_app_inj_length (s1 t1 s2 t2 : string) :
  String.length s1 = String.length t1 ->
  s1 +:+ s2 = t1 +:+ t2 -> s1 = t1 /\ s2 = t2.
Proof.
  revert t1. induction s1 as [|c s1 IH]; intros [|c' t1] Hlen Heq;
    try discriminate.
  - now split.
  - change (String c (s1 +:+ s2) = String c' (t1 +:+ t2)) in Heq.
    injection Heq as -> Heq. injection Hlen as Hlen.
    destruct (IH t1 Hlen Heq) as [-> ->]. now split.
Qed.

Lemma frac36_length (n : nat) (r : Q) : String.length (frac36 n r) <= n.
Proof.
  revert r. induction n as [|n IH]; intros r; simpl.
  - lia.
  - destruct (Qeq_bool r 0); simpl; [lia|].
    specialize (IH (Qred (Qred (r * 36) - inject_Z (Qfloor (Qred (r * 36)))))).
    lia.
Qed.

Lemma Qltb_lt (a b : Q) : Qltb a b = true <-> (a < b)%Q.
Proof.
  unfold Qltb. rewrite negb_true_iff. split.
  - intros H. apply Qnot_le_lt. intros Hle.
    apply Qle_bool_iff in Hle. congruence.
  - intros H. destruct (Qle_bool b a) eqn:E; [|reflexivity].
    apply Qle_bool_iff in E. exfalso. exact (Qlt_not_le _ _ H E).
Qed.

Lemma strict_eq_str_true (v : JsVal) (s : string) :
  strict_eq_str v s = true <-> v = JStr s.
Proof.
  destruct v; simpl; try (split; [discriminate | congruence]).
  rewrite String.eqb_eq. split; congruence.
Qed.

(** Unfolds the monad and the primitives of the handlers. *)
Ltac exec :=
  unfold bind, ret, Math_random, Date_now, new_Date_toISOString, new_object,
    deref, assign, orders_get, orders_set, payments_set, setTimeout,
    with_heap, with_orders, with_payments, with_timers, with_random_ix,
    with_clock_ix; simpl.

Ltac same_now := repeat split; reflexivity.

(** Closed comparisons of integer constants. *)
Ltac small := vm_compute; discriminate.

Section Properties.

Variable rnd : nat -> Q.
Variable clk : nat -> Z.
Variable fl : Q -> Q.

(** The order object that [payment_create] builds in world [w]. *)
Lemma CreateOrder_run (a s b : JsVal) (w : World) :
  let id := "ORDER" +:+ pretty (clk (clock_ix w))
            +:+ toString36_substr_2_9 (rnd (random_ix w)) in
  let o := {| Order.orderId := id;
              Order.amount := js_or a default_amount;
              Order.subject := js_or s default_subject;
              Order.bankCard := js_or b default_bankCard;
              Order.bankName := fixed_bankName;
              Order.status := pending;
              Order.createTime := ISO (clk (S (clock_ix w)));
              Order.payTime := None |} in
  CreateOrder rnd clk fl a s b w =
    (Some (Envelope 200 true 0 (Some "订单创建成功") (Some (DataOrder o))),
     {| heap := heap w ++ [o];
        orders := <[id := length (heap w)]> (orders w);
        payments := payments w;
        timers := timers w;
        random_ix := S (S (random_ix w));
        clock_ix := S (S (clock_ix w)) |}).
Proof.
  destruct w as [h os ps ts ri ci]. cbv zeta.
  unfold CreateOrder, call, handle, payment_create, generateOrderId, step.
  exec. rewrite lookup_last_snoc, delete_last_snoc.
  unfold run_callback, reply_with_order. exec.
  rewrite lookup_app_r by lia. rewrite Nat.sub_diag. reflexivity.
Qed.

(** *** Requests for an order that is not in the store *)


Lemma orders_get_unknown (k : JsVal) (w : World) :
  unknown k w -> orders_get k w = (None, w).
Proof.
  intros H. unfold orders_get. destruct k; try reflexivity.
  now rewrite (H s eq_refl).
Qed.

Lemma payment_info_unknown (s : string) (w : World) :
  orders w !! s = None -> payment_info rnd fl s w = (Some not_found, w).
Proof. intros H. unfold payment_info. exec. now rewrite H. Qed.

Lemma payment_query_unknown (s : string) (w : World) :
  orders w !! s = None -> payment_query rnd fl s w = (Some not_found, w).
Proof. intros H. unfold payment_query. exec. now rewrite H. Qed.

Lemma payment_validate_unknown (k pw : JsVal) (w : World) :
  unknown k w -> payment_validate rnd fl k pw w = (Some not_found, w).
Proof.
  intros H. unfold payment_validate, bind.
  rewrite (orders_get_unknown _ _ H). reflexivity.
Qed.

Lemma call_replied (req : Request) (w w' : World) (resp : Response) :
  handle rnd clk fl req w = (Some resp, w') ->
  call rnd clk fl req w = (Some resp, w').
Proof. intros H. unfold call, bind. now rewrite H. Qed.

(** *** Requests for a stored order, served to their end *)


Lemma GetOrderInfo_run (s : string) (w : World) (l : ref) (o : Order.t) :
  stored w s l o ->
  GetOrderInfo rnd clk fl s w =
    (Some (Envelope 200 true 0 None (Some (DataOrder o))),
     with_random_ix (S (random_ix w)) w).
Proof.
  intros [Hs Hl]. destruct w as [h os ps ts ri ci]. simpl in *.
  unfold GetOrderInfo, call, handle, payment_info, step. exec.
  rewrite Hs. exec. rewrite lookup_last_snoc, delete_last_snoc.
  unfold run_callback, reply_with_order. exec. now rewrite Hl.
Qed.

Lemma QueryResult_run (s : string) (w : World) (l : ref) (o : Order.t) :
  stored w s l o ->
  QueryResult rnd clk fl s w =
    (Some (Envelope 200 true 0 None
             (Some (DataQuery (Order.orderId o) (Order.status o)
                              (Order.amount o) (Order.payTime o)))),
     with_random_ix (S (random_ix w)) w).
Proof.
  intros [Hs Hl]. destruct w as [h os ps ts ri ci]. simpl in *.
  unfold QueryResult, call, handle, payment_query, step. exec.
  rewrite Hs. exec. rewrite lookup_last_snoc, delete_last_snoc.
  unfold run_callback, query_callback. exec. now rewrite Hl.
Qed.

Lemma SecurityCheck_run (w : World) :
  SecurityCheck rnd clk fl w =
    (Some (Envelope 200 true 0 (Some "安全设置检测成功！")
             (Some (DataSecurity true "low"))),
     with_random_ix (S (random_ix w)) w).
Proof.
  destruct w as [h os ps ts ri ci].
  unfold SecurityCheck, call, handle, security_check, step. exec.
  now rewrite lookup_last_snoc, delete_last_snoc.
Qed.


Lemma ValidateCredential_run (s : string) (pw : JsVal) (w : World)
    (l : ref) (o : Order.t) :
  stored w s l o ->
  ValidateCredential rnd clk fl (JStr s) pw w =
    if Qltb (rnd (random_ix w)) (5 # 100)
       || negb (strict_eq_str pw "123456")
    then (Some wrong_password, with_random_ix (S (S (random_ix w))) w)
    else
      let t := ISO (clk (clock_ix w)) in
      let p := {| Payment.paymentId := "PAY" +:+ pretty (clk (S (clock_ix w)));
                  Payment.orderId := s;
                  Payment.amount := Order.amount o;
                  Payment.status := success;
                  Payment.payTime := Some t |} in
      (Some (Envelope 200 true 0 (Some "支付成功") (Some (DataPayment p))),
       {| heap := <[l := settle t o]> (heap w);
          orders := orders w;
          payments := <[Payment.paymentId p := p]> (payments w);
          timers := timers w;
          random_ix := S (S (random_ix w));
          clock_ix := S (S (clock_ix w)) |}).
Proof.
  intros [Hs Hl]. destruct w as [h os ps ts ri ci]. simpl in *.
  unfold ValidateCredential, call, handle, payment_validate, step. exec.
  rewrite Hs. exec. rewrite lookup_last_snoc, delete_last_snoc.
  unfold run_callback, validate_callback.
  destruct (Qltb (rnd ri) (5 # 100) || negb (strict_eq_str pw "123456"));
    [reflexivity|].
  exec. rewrite list_alter_alter_eq, list_lookup_alter_eq, Hl. simpl.
  assert (Hins : alter (set_payTime (ISO (clk ci)) ∘ set_status success) l h
                 = <[l := settle (ISO (clk ci)) o]> h).
  { apply list_eq. intros i. destruct (decide (l = i)) as [->|Hne].
    - rewrite list_lookup_alter_eq, Hl. simpl.
      rewrite list_lookup_insert_eq; [reflexivity|].
      now apply lookup_lt_Some in Hl.
    - now rewrite list_lookup_alter_ne, list_lookup_insert_ne. }
  rewrite Hins. reflexivity.
Qed.

(** *** Operations that only read *)


Lemma same_stores_refl (w : World) : same_stores w w.
Proof. now repeat split. Qed.

Lemma handle_read_only (req : Request) (w : World) :
  (forall a s b, req <> POST_payment_create a s b) ->
  same_stores w (snd (handle rnd clk fl req w)).
Proof.
  intros Hreq. destruct w as [h os ps ts ri ci].
  destruct req as [a s b|s|k pw|s| |]; simpl.
  - now destruct (Hreq a s b).
  - unfold payment_info. exec. destruct (os !! s); same_now.
  - unfold payment_validate. exec.
    destruct k; try same_now.
    destruct (os !! s); same_now.
  - unfold payment_query. exec. destruct (os !! s); same_now.
  - same_now.
  - same_now.
Qed.


Lemma run_callback_read_only (cb : Callback) (w : World) :
  accepting cb = false ->
  same_stores w (snd (run_callback clk cb w)).
Proof.
  intros Hcb. destruct w as [h os ps ts ri ci].
  destruct cb as [l|l|l id rf ok|l|]; simpl.
  - unfold reply_with_order. exec. same_now.
  - unfold reply_with_order. exec. same_now.
  - unfold validate_callback. simpl in Hcb.
    apply negb_false_iff in Hcb. rewrite Hcb. same_now.
  - unfold query_callback. exec. same_now.
  - same_now.
Qed.

Lemma step_timer_read_only (i : nat) (w : World) :
  (forall d cb, timers w !! i = Some (d, cb) -> accepting cb = false) ->
  same_stores w (snd (step rnd clk fl (TimerFires i) w)).
Proof.
  intros H. simpl. destruct (timers w !! i) as [[d cb]|] eqn:E.
  - pose proof (run_callback_read_only cb
                  (with_timers (delete i (timers w)) w) (H d cb eq_refl)).
    destruct w; exact H0.
  - apply same_stores_refl.
Qed.

Lemma call_read_only (req : Request) (w : World) :
  (forall a s b, req <> POST_payment_create a s b) ->
  (forall k pw, req <> POST_payment_validate k pw) ->
  same_stores w (snd (call rnd clk fl req w)).
Proof.
  intros Hc Hv. pose proof (handle_read_only req w Hc) as Hh.
  unfold call, bind.
  destruct (handle rnd clk fl req w) as [[resp|] w1] eqn:E; simpl in *.
  - exact Hh.
  - assert (Ht : forall d cb,
               timers w1 !! pred (length (timers w1)) = Some (d, cb) ->
               accepting cb = false).
    { destruct w as [h os ps ts ri ci].
      destruct req as [a s b|s|k pw|s| |]; simpl in E.
      - now destruct (Hc a s b).
      - unfold payment_info in E. revert E. exec.
        destruct (os !! s); intros [= <-]; simpl.
        intros d cb. rewrite lookup_last_snoc. now intros [= <- <-].
      - now destruct (Hv k pw).
      - unfold payment_query in E. revert E. exec.
        destruct (os !! s); intros [= <-]; simpl.
        intros d cb. rewrite lookup_last_snoc. now intros [= <- <-].
      - revert E. unfold security_check. exec. intros [= <-]. simpl.
        intros d cb. rewrite lookup_last_snoc. now intros [= <- <-].
      - discriminate E. }
    pose proof (step_timer_read_only _ w1 Ht) as Hs.
    destruct Hh as (h1 & h2 & h3), Hs as (s1 & s2 & s3).
    exact (conj (eq_trans s1 h1) (conj (eq_trans s2 h2) (eq_trans s3 h3))).
Qed.

(** ** The operations, one by one *)

(** C9: a falsy field of the request — not only a missing one — is
    replaced by its default in the order that [CreateOrder] stores and
    returns; the number 0 and the empty string are falsy. *)
Theorem CreateOrder_falsy_defaults (a s b : JsVal) (w : World) :
  exists (o : Order.t) (w' : World),
    CreateOrder rnd clk fl a s b w =
      (Some (Envelope 200 true 0 (Some "订单创建成功")
               (Some (DataOrder o))), w')
    /\ stored w' (Order.orderId o) (length (heap w)) o
    /\ (truthy a = false -> Order.amount o = JNum 579)
    /\ (truthy s = false ->
        Order.subject o = JStr "罗技大师系列MX Master 3s无线蓝牙双模鼠标")
    /\ (truthy b = false -> Order.bankCard o = JStr "****7061")
    /\ truthy (JNum 0) = false
    /\ truthy (JStr "") = false.
Proof.
  eexists. eexists. split; [apply CreateOrder_run|].
  unfold stored, js_or. simpl. repeat split.
  - apply lookup_insert_eq.
  - rewrite lookup_app_r by lia. now rewrite Nat.sub_diag.
  - now intros ->.
  - now intros ->.
  - now intros ->.
Qed.

(** C4: when no order is stored under the identifier, [GetOrderInfo],
    [QueryResult] and [ValidateCredential] answer 404 with
    [success: false] and [code: 404], whatever the stores hold; the
    handler of [ValidateCredential] answers at once and leaves the world as
    it was: no callback is scheduled and no random number is drawn. *)
Theorem unknown_order_not_found (s : string) (k pw : JsVal) (w : World) :
  orders w !! s = None ->
  unknown k w ->
  let answer := Some (Envelope 404 false 404 (Some "订单不存在") None) in
  GetOrderInfo rnd clk fl s w = (answer, w)
  /\ QueryResult rnd clk fl s w = (answer, w)
  /\ ValidateCredential rnd clk fl k pw w = (answer, w)
  /\ handle rnd clk fl (POST_payment_validate k pw) w = (answer, w).
Proof.
  intros Hs Hk. cbv zeta. repeat split.
  - apply call_replied. now apply payment_info_unknown.
  - apply call_replied. now apply payment_query_unknown.
  - apply call_replied. now apply payment_validate_unknown.
  - now apply payment_validate_unknown.
Qed.

(** C1: for a stored order, [ValidateCredential] rejects exactly when the
    random failure is drawn (a random number below 0.05) or the password
    is not ["123456"].  A rejection leaves both stores as they were.  An
    acceptance sets the status of the order object to [success] and its
    [payTime], changes nothing else in the order store, stores a payment
    for this order with the amount of the order and the same [payTime],
    and returns that payment. *)
Theorem ValidateCredential_outcome (s : string) (pw : JsVal) (w : World)
    (l : ref) (o : Order.t) :
  stored w s l o ->
  let out := ValidateCredential rnd clk fl (JStr s) pw w in
  let rejected :=
    fst out = Some (Envelope 200 false 1001 (Some "支付密码错误")
                      (Some DataNull)) in
  (rejected <-> (rnd (random_ix w) < 5 # 100)%Q \/ pw <> JStr "123456")
  /\ (rejected -> same_stores w (snd out))
  /\ (~ rejected ->
      exists (t : DateString) (o' : Order.t) (p : Payment.t),
        fst out = Some (Envelope 200 true 0 (Some "支付成功")
                          (Some (DataPayment p)))
        /\ stored (snd out) s l o'
        /\ Order.status o' = success
        /\ Order.payTime o' = Some t
        /\ set_payTime t (set_status success o) = o'
        /\ (forall l', l' <> l -> heap (snd out) !! l' = heap w !! l')
        /\ orders (snd out) = orders w
        /\ Payment.orderId p = s
        /\ Payment.amount p = Order.amount o
        /\ Payment.status p = success
        /\ Payment.payTime p = Some t
        /\ payments (snd out) = <[Payment.paymentId p := p]> (payments w)).
Proof.
  intros Hst. cbv zeta. rewrite (ValidateCredential_run s pw w l o Hst).
  destruct Hst as [Hs Hl].
  destruct (Qltb (rnd (random_ix w)) (5 # 100)) eqn:Er; simpl.
  { split; [|split].
    - split; [|reflexivity]. intros _. left. now apply Qltb_lt.
    - intros _. same_now.
    - intros H. now destruct H. }
  assert (Hr : ~ (rnd (random_ix w) < 5 # 100)%Q).
  { intros H. apply Qltb_lt in H. congruence. }
  destruct (strict_eq_str pw "123456") eqn:Ep; simpl.
  - apply strict_eq_str_true in Ep. split; [|split].
    + split; [discriminate|]. intros [H|H]; [now destruct Hr|now destruct H].
    + discriminate.
    + intros _. exists (ISO (clk (clock_ix w))). eexists. eexists.
      split; [reflexivity|]. unfold stored. simpl.
      split; [split|].
      * exact Hs.
      * apply list_lookup_insert_eq. now apply lookup_lt_Some in Hl.
      * repeat (split; [reflexivity|]).
        split; [|repeat (split; [reflexivity|]); reflexivity].
        intros l' Hne. now apply list_lookup_insert_ne.
  - split; [|split].
    + split; [|reflexivity]. intros _. right. intros H.
      apply strict_eq_str_true in H. congruence.
    + intros _. same_now.
    + intros H. now destruct H.
Qed.

(** C10: [GetOrderInfo], [QueryResult], [SecurityCheck] and [Stats] leave
    the order store, the order objects and the payment store as they were.
    A step of the server changes them only when it is the handler of
    [CreateOrder] or the callback of an accepted validation. *)
Theorem read_operations_keep_stores (s : string) (w : World) :
  same_stores w (snd (GetOrderInfo rnd clk fl s w))
  /\ same_stores w (snd (QueryResult rnd clk fl s w))
  /\ same_stores w (snd (SecurityCheck rnd clk fl w))
  /\ same_stores w (snd (Stats rnd clk fl w))
  /\ forall e : Event,
      same_stores w (snd (step rnd clk fl e w))
      \/ (exists a sb b, e = Incoming (POST_payment_create a sb b))
      \/ (exists i d cb, e = TimerFires i
                         /\ timers w !! i = Some (d, cb)
                         /\ accepting cb = true).
Proof.
  repeat split; try (apply call_read_only; discriminate).
  intros [req|i].
  - destruct req as [a sb b| | | | |];
      try (left; apply handle_read_only; discriminate).
    right. left. now exists a, sb, b.
  - destruct (timers w !! i) as [[d cb]|] eqn:E.
    + destruct (accepting cb) eqn:Ea.
      * right. right. now exists i, d, cb.
      * left. apply step_timer_read_only. intros d' cb'. rewrite E.
        now intros [= <- <-].
    + left. apply step_timer_read_only. intros d' cb'. rewrite E.
      discriminate.
Qed.

(** ** Steps of the event loop *)

Lemma accepting_true (cb : Callback) :
  accepting cb = true ->
  exists l id, cb = ValidateReply l id false true.
Proof.
  destruct cb as [l|l|l id rf ok|l|]; simpl; try discriminate.
  destruct rf, ok; simpl; try discriminate. intros _. now exists l, id.
Qed.

Lemma step_effect (e : Event) (w : World) :
  Effect rnd clk e w (snd (step rnd clk fl e w)).
Proof.
  destruct w as [h os ps ts ri ci]. destruct e as [req|i].
  - destruct req as [a s b|s|k pw|s| |]; simpl.
    + unfold payment_create, generateOrderId. exec.
      eapply (Eff_create rnd clk a s b (mkWorld h os ps ts ri ci));
        reflexivity.
    + unfold payment_info. exec. destruct (os !! s) as [l|] eqn:E; simpl.
      * eapply (Eff_schedule rnd clk _ (mkWorld h os ps ts ri ci)); simpl.
        -- intros l' [= <-]. now exists s.
        -- discriminate.
      * apply Eff_answer.
    + unfold payment_validate. exec.
      destruct k as [| | | |s| |]; try apply Eff_answer.
      destruct (os !! s) as [l|] eqn:E; simpl.
      * eapply (Eff_schedule rnd clk _ (mkWorld h os ps ts ri ci)); simpl.
        -- intros l' [= <-]. now exists s.
        -- now intros l' id rf ok [= <- <- _ _].
      * apply Eff_answer.
    + unfold payment_query. exec. destruct (os !! s) as [l|] eqn:E; simpl.
      * eapply (Eff_schedule rnd clk _ (mkWorld h os ps ts ri ci)); simpl.
        -- intros l' [= <-]. now exists s.
        -- discriminate.
      * apply Eff_answer.
    + unfold security_check. exec.
      eapply (Eff_schedule rnd clk _ (mkWorld h os ps ts ri ci)); simpl;
        discriminate.
    + apply Eff_answer.
  - simpl. destruct (ts !! i) as [[d cb]|] eqn:E.
    + destruct (accepting cb) eqn:Ea.
      * destruct (accepting_true cb Ea) as (l & id & ->). simpl.
        unfold validate_callback. exec.
        rewrite list_alter_alter_eq, list_lookup_alter_eq.
        destruct (h !! l) as [o|] eqn:El; simpl.
        -- assert (Hins : alter (set_payTime (ISO (clk ci))
                                 ∘ set_status success) l h
                         = <[l := settle (ISO (clk ci)) o]> h).
           { apply list_eq. intros j. destruct (decide (l = j)) as [->|Hne].
             - rewrite list_lookup_alter_eq, El. simpl.
               rewrite list_lookup_insert_eq; [reflexivity|].
               now apply lookup_lt_Some in El.
             - now rewrite list_lookup_alter_ne, list_lookup_insert_ne. }
           rewrite Hins.
           exact (Eff_settle rnd clk i (mkWorld h os ps ts ri ci)
                    d l id o E El).
        -- assert (Hid : alter (set_payTime (ISO (clk ci))
                                ∘ set_status success) l h = h).
           { apply list_eq. intros j. destruct (decide (l = j)) as [->|Hne].
             - now rewrite list_lookup_alter_eq, El.
             - now rewrite list_lookup_alter_ne. }
           rewrite Hid.
           exact (Eff_dangling rnd clk i (mkWorld h os ps ts ri ci)
                    d l id E El).
      * unfold with_timers. simpl.
        assert (Hro := run_callback_read_only cb
                         (mkWorld h os ps (delete i ts) ri ci) Ea).
        destruct Hro as (H1 & H2 & H3). simpl in *.
        assert (Hrest : forall w0, 
                   timers (snd (run_callback clk cb w0)) = timers w0
                   /\ random_ix (snd (run_callback clk cb w0)) = random_ix w0
                   /\ clock_ix (snd (run_callback clk cb w0)) = clock_ix w0).
        { intros w0. destruct cb as [l|l|l id rf ok|l|]; simpl;
            try (now repeat split).
          unfold validate_callback. simpl in Ea.
          apply negb_false_iff in Ea. rewrite Ea. now repeat split. }
        destruct (Hrest (mkWorld h os ps (delete i ts) ri ci))
          as (H4 & H5 & H6). simpl in *.
        destruct (run_callback clk cb (mkWorld h os ps (delete i ts) ri ci))
          as [resp [h' os' ps' ts' ri' ci']]. simpl in *. subst.
        exact (Eff_reply rnd clk i (mkWorld h os ps ts ri ci) d cb E Ea).
    + now apply Eff_no_timer.
Qed.

(** A property kept by every step holds all along a run. *)
Lemma run_invariant (P : World -> Prop) :
  (forall e w, P w -> P (snd (step rnd clk fl e w))) ->
  forall es w, P w -> P (run rnd clk fl es w).
Proof.
  intros Hstep es. induction es as [|e es IH]; intros w Hw; simpl.
  - exact Hw.
  - apply IH. now apply Hstep.
Qed.

(** ** The invariants along a run *)

Lemma pending_payTime_iff (o : Order.t) :
  Order.status o = pending -> Order.payTime o = None ->
  payTime_iff_success o.
Proof.
  intros Hs Hp. unfold payTime_iff_success. rewrite Hs, Hp. split.
  - intros [x Hx]. discriminate.
  - discriminate.
Qed.

Lemma settle_payTime_iff (t : DateString) (o : Order.t) :
  payTime_iff_success (settle t o).
Proof. split; [reflexivity | intros _; now exists t]. Qed.

Lemma well_formed_effect (e : Event) (w w' : World) :
  Effect rnd clk e w w' -> well_formed w -> well_formed w'.
Proof.
  intros Heff ((Hord & Htim) & Hpay & Hne1 & Hne2).
  destruct Heff as [a s b w o d ri ci Hid Hst Hpt
                   |req w d cb ri Hcap Hval
                   |req w
                   |i w Hi
                   |i w d cb Hi Hacc
                   |i w d l id o Hi Hl
                   |i w d l id Hi Hl]; simpl.
  - (* a new order *)
    split; [split|split; [|split]]; simpl.
    + intros id l. rewrite lookup_insert_Some.
      intros [[<- <-]|[Hne Hl]].
      * exists o. split; [|reflexivity].
        rewrite lookup_app_r by lia. now rewrite Nat.sub_diag.
      * destruct (Hord id l Hl) as (o' & Ho' & Hid').
        exists o'. split; [|exact Hid']. now apply lookup_app_l_Some.
    + apply Forall_app. split.
      * eapply Forall_impl; [exact Htim|]. simpl. intros t Ht l Hc.
        destruct (Ht l Hc) as [x Hx]. exists x. now apply lookup_app_l_Some.
      * constructor; [|constructor]. simpl. intros l [= <-]. exists o.
        rewrite lookup_app_r by lia. now rewrite Nat.sub_diag.
    + apply Forall_app. split; [exact Hpay|].
      constructor; [|constructor]. now apply pending_payTime_iff.
    + intros H. now apply app_eq_nil in H as [_ H].
    + intros H. now apply insert_non_empty in H.
  - (* a reply is scheduled *)
    split; [split|split; [|split]]; simpl; try assumption.
    apply Forall_app. split; [exact Htim|].
    constructor; [|constructor]. simpl. intros l Hc.
    destruct (Hcap l Hc) as (id & Hid).
    destruct (Hord id l Hid) as (o & Ho & _). now exists o.
  - exact (conj (conj Hord Htim) (conj Hpay (conj Hne1 Hne2))).
  - exact (conj (conj Hord Htim) (conj Hpay (conj Hne1 Hne2))).
  - split; [split|split; [|split]]; simpl; try assumption.
    now apply Forall_delete.
  - (* an accepted validation settles the order *)
    split; [split|split; [|split]]; simpl.
    + intros id' l' Hl'. destruct (Hord id' l' Hl') as (o' & Ho' & Hid').
      destruct (decide (l = l')) as [<-|Hne].
      * exists (settle (ISO (clk (clock_ix w))) o). split.
        -- apply list_lookup_insert_eq. now apply lookup_lt_Some in Hl.
        -- rewrite Hl in Ho'. now injection Ho' as <-.
      * exists o'. split; [|exact Hid'].
        now rewrite list_lookup_insert_ne.
    + apply Forall_delete. eapply Forall_impl; [exact Htim|]. simpl.
      intros tm Htm l' Hc. apply list_lookup_insert_is_Some. now apply Htm.
    + apply Forall_insert; [exact Hpay|]. apply settle_payTime_iff.
    + intros H. apply (f_equal length) in H. rewrite length_insert in H.
      apply lookup_lt_Some in Hl. simpl in H. lia.
    + intros H. apply Hne2 in H. rewrite H in Hl. discriminate.
  - split; [split|split; [|split]]; simpl; try assumption.
    now apply Forall_delete.
Qed.

Lemma well_formed_empty : well_formed empty_world.
Proof.
  split; [split|split; [|split]]; simpl.
  - intros id l. rewrite lookup_empty. discriminate.
  - constructor.
  - constructor.
  - now intros _.
  - reflexivity.
Qed.

Lemma well_formed_run (es : list Event) (w : World) :
  well_formed w -> well_formed (run rnd clk fl es w).
Proof.
  apply run_invariant. intros e w0. apply well_formed_effect with e.
  apply step_effect.
Qed.

Lemma payTime_effect (e : Event) (w w' : World) :
  Effect rnd clk e w w' ->
  Forall payTime_iff_success (heap w) ->
  Forall payTime_iff_success (heap w').
Proof.
  intros Heff Hpay.
  destruct Heff as [a s b w o d ri ci Hid Hst Hpt| | | | | |]; simpl;
    try assumption.
  - apply Forall_app. split; [exact Hpay|].
    constructor; [|constructor]. now apply pending_payTime_iff.
  - apply Forall_insert; [exact Hpay|]. apply settle_payTime_iff.
Qed.

(** C3: in every state the server can reach, each stored order has a
    [payTime] exactly when its status is [success].  Every step of the
    server keeps this true of all order objects, from any world where it
    holds: [payment_create] stores a pending order without [payTime], and
    a step gives an object its [payTime] exactly when it moves its status
    from [pending] to [success]. *)
Theorem payTime_present_iff_success :
  (forall es id l o,
      stored (run rnd clk fl es empty_world) id l o ->
      (is_Some (Order.payTime o) <-> Order.status o = success))
  /\ (forall a s b w, exists o,
        let w' := snd (handle rnd clk fl (POST_payment_create a s b) w) in
        heap w' = heap w ++ [o]
        /\ orders w' !! Order.orderId o = Some (length (heap w))
        /\ Order.status o = pending
        /\ Order.payTime o = None)
  /\ (forall e w,
        Forall payTime_iff_success (heap w) ->
        Forall payTime_iff_success (heap (snd (step rnd clk fl e w))))
  /\ (forall e w l o o',
        Forall payTime_iff_success (heap w) ->
        heap w !! l = Some o ->
        heap (snd (step rnd clk fl e w)) !! l = Some o' ->
        (Order.payTime o = None /\ is_Some (Order.payTime o'))
        <-> (Order.status o = pending /\ Order.status o' = success)).
Proof.
  assert (Hstep : forall e w,
             Forall payTime_iff_success (heap w) ->
             Forall payTime_iff_success (heap (snd (step rnd clk fl e w)))).
  { intros e w. apply payTime_effect with e. apply step_effect. }
  split; [|split; [|split]].
  - intros es id l o [_ Hl].
    destruct (well_formed_run es empty_world well_formed_empty)
      as (_ & Hpay & _).
    exact (Forall_lookup_1 _ _ _ _ Hpay Hl).
  - intros a s b w. eexists. cbv zeta. simpl.
    unfold payment_create, generateOrderId. exec.
    split; [reflexivity|]. split; [apply lookup_insert_eq|]. now split.
  - exact Hstep.
  - intros e w l o o' Hpay Hl Hl'.
    pose proof (Forall_lookup_1 _ _ _ _ Hpay Hl) as [H1 H2].
    pose proof (Forall_lookup_1 _ _ _ _ (Hstep e w Hpay) Hl') as [H3 H4].
    split.
    + intros [Hn Hs]. split; [|now apply H3].
      destruct (Order.status o); [reflexivity|].
      destruct (H2 eq_refl) as [x Hx]. congruence.
    + intros [Hp Hs]. split; [|now apply H4].
      destruct (Order.payTime o) as [x|] eqn:E; [|reflexivity].
      assert (Order.status o = success) by (apply H1; now exists x).
      congruence.
Qed.

(** C7: after any sequence of events, [Stats] answers at once, without
    scheduling a reply and without changing the world, with the number of
    stored orders, the number of stored payments and their quotient, the
    divisor being at least 1; with no order stored the rate is 0. *)
Theorem Stats_reports_sizes (es : list Event) :
  let w := run rnd clk fl es empty_world in
  exists rate : Q,
    Stats rnd clk fl w =
      (Some (StatsBody (size (orders w)) (size (payments w)) rate), w)
    /\ handle rnd clk fl GET_stats w =
         (Some (StatsBody (size (orders w)) (size (payments w)) rate), w)
    /\ rate = (inject_Z (Z.of_nat (size (payments w)))
               / inject_Z (Z.of_nat (Nat.max (size (orders w)) 1)))%Q
    /\ (size (orders w) = 0 -> rate = 0%Q).
Proof.
  intros w. eexists. split; [reflexivity|]. split; [reflexivity|].
  split; [reflexivity|]. intros Hz.
  destruct (well_formed_run es empty_world well_formed_empty)
    as (_ & _ & Hne1 & Hne2). fold w in Hne1, Hne2.
  assert (Ho : orders w = ∅) by now apply map_size_empty_iff.
  destruct (Hne1 (Hne2 Ho)) as [_ Hp].
  rewrite Hz, Hp, map_size_empty. reflexivity.
Qed.

(** ** Payments and settled orders, when identifiers do not repeat *)

Lemma stored_orderId (w : World) (id : string) (l : ref) (o : Order.t) :
  refs_valid w -> stored w id l o -> Order.orderId o = id.
Proof.
  intros [Hord _] [Hs Hl]. destruct (Hord id l Hs) as (o' & Ho' & Hid).
  congruence.
Qed.

Lemma consistent_effect (e : Event) (w w' : World) :
  Effect rnd clk e w w' ->
  fresh_step rnd clk e w = true ->
  well_formed w -> consistent w -> consistent w'.
Proof.
  intros Heff Hfresh Hwf (Hrefs & Hcur & Hps & Hsp).
  assert (Hrefs' : refs_valid w').
  { now destruct (well_formed_effect e w w' Heff Hwf). }
  split; [exact Hrefs'|]. clear Hrefs'.
  destruct Heff as [a s b w o d ri ci Hid Hst Hpt
                   |req w d cb ri Hcap Hval
                   |req w
                   |i w Hi
                   |i w d cb Hi Hacc
                   |i w d l id o Hi Hl
                   |i w d l id Hi Hl];
    unfold validations_current, payments_settled, settled_paid, stored in *;
    simpl in *.
  - (* a new order under a fresh key *)
    apply bool_decide_eq_true in Hfresh. rewrite <- Hid in Hfresh.
    split; [|split].
    + apply Forall_app. split; [|constructor; [discriminate|constructor]].
      eapply Forall_impl; [exact Hcur|]. simpl.
      intros tm Htm l id rf ok Heq. rewrite lookup_insert_ne.
      * now apply (Htm l id rf ok).
      * intros <-. rewrite (Htm l _ rf ok Heq) in Hfresh. discriminate.
    + intros pid p Hp. destruct (Hps pid p Hp) as (l & o' & [Hs Hl] & Hsucc).
      exists l, o'. split; [split|exact Hsucc].
      * rewrite lookup_insert_ne; [exact Hs|].
        intros Heq. rewrite Heq, Hs in Hfresh. discriminate.
      * now apply lookup_app_l_Some.
    + intros id l o'. rewrite lookup_insert_Some.
      intros [[[<- <-]|[Hne Hs]] Hl] Hsucc.
      * rewrite lookup_app_r in Hl by lia. rewrite Nat.sub_diag in Hl.
        injection Hl as <-. congruence.
      * destruct Hrefs as [Hord _].
        destruct (Hord id l Hs) as (o1 & Ho1 & _).
        rewrite (lookup_app_l_Some _ _ _ _ Ho1) in Hl. injection Hl as <-.
        exact (Hsp id l o1 (conj Hs Ho1) Hsucc).
  - split; [|split]; try assumption.
    apply Forall_app. split; [exact Hcur|].
    constructor; [|constructor]. simpl. intros l id rf ok ->.
    now apply (Hval l id rf ok).
  - now repeat split.
  - now repeat split.
  - split; [|split]; try assumption. now apply Forall_delete.
  - (* an accepted validation under a fresh payment key *)
    rewrite Hi in Hfresh. simpl in Hfresh.
    apply bool_decide_eq_true in Hfresh.
    assert (Hkey : orders w !! id = Some l).
    { apply (Forall_lookup_1 _ _ _ _ Hcur Hi l id false true eq_refl). }
    split; [|split].
    + now apply Forall_delete.
    + intros pid q. rewrite lookup_insert_Some.
      intros [[<- <-]|[Hne Hp]]; simpl.
      * exists l, (settle (ISO (clk (clock_ix w))) o).
        split; [split|reflexivity]; [exact Hkey|].
        apply list_lookup_insert_eq. now apply lookup_lt_Some in Hl.
      * destruct (Hps pid q Hp) as (l' & o' & [Hs' Hl'] & Hsucc).
        destruct (decide (l = l')) as [<-|Hne'].
        -- exists l, (settle (ISO (clk (clock_ix w))) o).
           split; [split|reflexivity]; [exact Hs'|].
           apply list_lookup_insert_eq. now apply lookup_lt_Some in Hl.
        -- exists l', o'. split; [split|exact Hsucc]; [exact Hs'|].
           now rewrite list_lookup_insert_ne.
    + intros id' l' o' [Hs' Hl'] Hsucc.
      destruct (decide (l = l')) as [<-|Hne'].
      * exists (next_paymentId clk w). eexists.
        split; [apply lookup_insert_eq|]. simpl.
        rewrite <- (stored_orderId w id l o Hrefs (conj Hkey Hl)).
        now rewrite (stored_orderId w id' l o Hrefs (conj Hs' Hl)).
      * rewrite list_lookup_insert_ne in Hl' by exact Hne'.
        destruct (Hsp id' l' o' (conj Hs' Hl') Hsucc) as (pid & q & Hp & Hpo).
        exists pid, q. split; [|exact Hpo].
        rewrite lookup_insert_ne; [exact Hp|].
        intros Heq. rewrite Heq, Hp in Hfresh. discriminate.
  - split; [|split]; try assumption. now apply Forall_delete.
Qed.

Lemma consistent_empty : consistent empty_world.
Proof.
  split; [apply well_formed_empty|]. split; [constructor|]. split.
  - intros pid p. simpl. rewrite lookup_empty. discriminate.
  - intros id l o [Hs _]. simpl in Hs. rewrite lookup_empty in Hs.
    discriminate.
Qed.

Lemma consistent_run (es : list Event) (w : World) :
  fresh_run rnd clk fl es w = true ->
  well_formed w -> consistent w ->
  consistent (run rnd clk fl es w).
Proof.
  revert w. induction es as [|e es IH]; intros w Hf Hwf Hc; simpl.
  - exact Hc.
  - simpl in Hf. apply andb_true_iff in Hf as [Hf1 Hf2].
    apply IH; [exact Hf2| |].
    + apply well_formed_effect with e w; [apply step_effect|exact Hwf].
    + apply consistent_effect with e w; [apply step_effect|assumption..].
Qed.

Lemma alter_settle (t : DateString) (l : ref) (o : Order.t)
    (h : list Order.t) :
  h !! l = Some o ->
  alter (set_payTime t ∘ set_status success) l h = <[l := settle t o]> h.
Proof.
  intros Hl. apply list_eq. intros j. destruct (decide (l = j)) as [->|Hne].
  - rewrite list_lookup_alter_eq, Hl. simpl.
    rewrite list_lookup_insert_eq; [reflexivity|].
    now apply lookup_lt_Some in Hl.
  - now rewrite list_lookup_alter_ne, list_lookup_insert_ne.
Qed.

Lemma settlement_step (i : nat) (w : World) (d : Q) (l : ref) (id : string)
    (o : Order.t) :
  timers w !! i = Some (d, ValidateReply l id false true) ->
  heap w !! l = Some o ->
  let t := ISO (clk (clock_ix w)) in
  let p := {| Payment.paymentId := "PAY" +:+ pretty (clk (S (clock_ix w)));
              Payment.orderId := id;
              Payment.amount := Order.amount o;
              Payment.status := success;
              Payment.payTime := Some t |} in
  step rnd clk fl (TimerFires i) w =
    (Some (Envelope 200 true 0 (Some "支付成功") (Some (DataPayment p))),
     {| heap := <[l := settle t o]> (heap w);
        orders := orders w;
        payments := <[Payment.paymentId p := p]> (payments w);
        timers := delete i (timers w);
        random_ix := random_ix w;
        clock_ix := S (S (clock_ix w)) |}).
Proof.
  intros Hi Hl. destruct w as [h os ps ts ri ci]. simpl in *.
  rewrite Hi. unfold run_callback, validate_callback. exec.
  rewrite list_alter_alter_eq, list_lookup_alter_eq, Hl. simpl.
  now rewrite (alter_settle _ _ _ _ Hl).
Qed.

Lemma resettles_true (e : Event) (w : World) :
  resettles e w = true ->
  exists i d l id o,
    e = TimerFires i
    /\ timers w !! i = Some (d, ValidateReply l id false true)
    /\ heap w !! l = Some o
    /\ Order.status o = success.
Proof.
  destruct e as [req|i]; simpl; [discriminate|].
  destruct (timers w !! i) as [[d [l|l|l id rf ok|l|]]|] eqn:Hi;
    try discriminate.
  destruct rf, ok; simpl; try discriminate.
  destruct (heap w !! l) as [o|] eqn:Hl; [|discriminate].
  destruct (Order.status o) eqn:Hs; [discriminate|]. intros _.
  now exists i, d, l, id, o.
Qed.

Lemma at_most_one_effect (e : Event) (w w' : World) :
  Effect rnd clk e w w' ->
  resettles e w = false ->
  consistent w -> at_most_one_payment w -> at_most_one_payment w'.
Proof.
  intros Heff Hres (Hrefs & Hcur & Hps & Hsp) Hone.
  destruct Heff as [a s b w o d ri ci Hid Hst Hpt| | | | |i w d l id o Hi Hl|];
    try exact Hone.
  unfold at_most_one_payment in *. simpl in *.
  rewrite Hi in Hres. simpl in Hres. rewrite Hl in Hres.
  assert (Hkey : orders w !! id = Some l).
  { apply (Forall_lookup_1 _ _ _ _ Hcur Hi l id false true eq_refl). }
  assert (Hnew : forall pid0 p0,
             payments w !! pid0 = Some p0 -> Payment.orderId p0 <> id).
  { intros pid0 p0 Hp0 Heq.
    destruct (Hps pid0 p0 Hp0) as (l' & o' & [Hs' Hl'] & Hsucc).
    rewrite Heq, Hkey in Hs'. injection Hs' as <-.
    rewrite Hl in Hl'. injection Hl' as <-.
    rewrite Hsucc in Hres. discriminate. }
  intros pid1 pid2 p1 p2. rewrite !lookup_insert_Some.
  intros [[<- <-]|[Hne1 Hp1]] [[<- <-]|[Hne2 Hp2]] Heq; simpl in *.
  - reflexivity.
  - now destruct (Hnew pid2 p2 Hp2).
  - now destruct (Hnew pid1 p1 Hp1).
  - exact (Hone pid1 pid2 p1 p2 Hp1 Hp2 Heq).
Qed.

Lemma at_most_one_run (es : list Event) (w : World) :
  fresh_run rnd clk fl es w = true ->
  settles_once_run rnd clk fl es w = true ->
  well_formed w -> consistent w -> at_most_one_payment w ->
  at_most_one_payment (run rnd clk fl es w).
Proof.
  revert w. induction es as [|e es IH]; intros w Hf Hs Hwf Hc Hone; simpl.
  - exact Hone.
  - simpl in Hf, Hs. apply andb_true_iff in Hf as [Hf1 Hf2].
    apply andb_true_iff in Hs as [Hs1 Hs2]. apply negb_true_iff in Hs1.
    pose proof (step_effect e w) as Heff.
    apply IH; [exact Hf2|exact Hs2| | |].
    + now apply well_formed_effect with e w.
    + now apply consistent_effect with e w.
    + now apply at_most_one_effect with e w.
Qed.

(** C2, as amended: along any sequence of events in which no generated
    identifier repeats a key already in its store, every payment record
    refers to a stored order with status [success], and a stored order has
    a payment record exactly when its status is [success].  As long as no
    accepted validation is carried out on an order whose status is [success]
    already, no two payment records refer to the same order; an accepted
    validation that is carried out on such an order leaves two payment
    records for it. *)
Theorem payments_match_settled_orders (es : list Event) :
  fresh_run rnd clk fl es empty_world = true ->
  let w := run rnd clk fl es empty_world in
  payments_settled w
  /\ payment_iff_success w
  /\ (settles_once_run rnd clk fl es empty_world = true ->
      at_most_one_payment w)
  /\ (forall e, fresh_step rnd clk e w = true ->
                resettles e w = true ->
                ~ at_most_one_payment (snd (step rnd clk fl e w))).
Proof.
  intros Hf. cbv zeta.
  pose proof (consistent_run es empty_world Hf well_formed_empty
                consistent_empty) as Hcons.
  destruct Hcons as (Hrefs & Hcur & Hps & Hsp).
  split; [exact Hps|]. split; [|split].
  - intros id l o Hst. split.
    + intros (pid & p & Hp & Hid).
      destruct (Hps pid p Hp) as (l' & o' & [Hs' Hl'] & Hsucc).
      destruct Hst as [Hs Hl]. rewrite Hid, Hs in Hs'. injection Hs' as <-.
      congruence.
    + intros Hsucc. exact (Hsp id l o Hst Hsucc).
  - intros Hs.
    apply (at_most_one_run es empty_world Hf Hs well_formed_empty
             consistent_empty).
    intros pid1 pid2 p1 p2 H1. simpl in H1. rewrite lookup_empty in H1.
    discriminate.
  - intros e Hfe Hre Hone.
    destruct (resettles_true e _ Hre) as (i & d & l & id & o & -> & Hi & Hl & Hsucc).
    assert (Hkey : orders (run rnd clk fl es empty_world) !! id = Some l).
    { apply (Forall_lookup_1 _ _ _ _ Hcur Hi l id false true eq_refl). }
    destruct (Hsp id l o (conj Hkey Hl) Hsucc) as (pid0 & p0 & Hp0 & Hid0).
    simpl in Hfe. rewrite Hi in Hfe. simpl in Hfe.
    apply bool_decide_eq_true in Hfe.
    rewrite (settlement_step i _ d l id o Hi Hl) in Hone. simpl in Hone.
    assert (Hne : next_paymentId clk (run rnd clk fl es empty_world) <> pid0).
    { intros Heq. rewrite Heq, Hp0 in Hfe. discriminate. }
    apply Hne.
    eapply (Hone _ pid0 _ p0); simpl.
    + apply lookup_insert_eq.
    + rewrite lookup_insert_ne; [exact Hp0|exact Hne].
    + simpl. now rewrite Hid0.
Qed.

(** ** The key of a new order *)

Lemma step_indices (e : Event) (w : World) :
  random_ix w <= random_ix (snd (step rnd clk fl e w))
  /\ clock_ix w <= clock_ix (snd (step rnd clk fl e w))
  /\ (is_create e = false -> orders (snd (step rnd clk fl e w)) = orders w).
Proof.
  destruct w as [h os ps ts ri ci]. destruct e as [req|i].
  - destruct req as [a s b|s|k pw|s| |]; simpl.
    + unfold payment_create, generateOrderId. exec.
      split; [lia|]. split; [lia|discriminate].
    + unfold payment_info. exec. destruct (os !! s); simpl; repeat split; lia.
    + unfold payment_validate. exec.
      destruct k as [| | | |s| |]; simpl; try (repeat split; lia).
      destruct (os !! s); simpl; repeat split; lia.
    + unfold payment_query. exec. destruct (os !! s); simpl; repeat split; lia.
    + repeat split; lia.
    + repeat split; lia.
  - simpl. destruct (ts !! i) as [[d cb]|]; [|simpl; repeat split; lia].
    destruct cb as [l|l|l id rf ok|l|]; simpl; try (repeat split; lia).
    unfold validate_callback.
    destruct (rf || negb ok); simpl; [repeat split; lia|].
    exec. destruct (alter _ l _ !! l); simpl; repeat split; lia.
Qed.

Lemma keys_generated_step (e : Event) (w : World) :
  keys_generated rnd clk w ->
  keys_generated rnd clk (snd (step rnd clk fl e w)).
Proof.
  intros Hk. destruct (step_indices e w) as (Hr & Hc & Ho).
  destruct (is_create e) eqn:Ec.
  - destruct e as [[a s b| | | | |]|i]; try discriminate.
    clear Hr Hc Ho. destruct w as [h os ps ts ri ci]. simpl.
    unfold payment_create, generateOrderId, keys_generated. exec.
    intros k. rewrite lookup_insert_is_Some. intros [<-|[_ Hs]].
    + exists ci, ri. simpl. split; [lia|]. split; [lia|reflexivity].
    + destruct (Hk k Hs) as (i & j & Hi & Hj & ->). simpl in Hi, Hj.
      exists i, j. simpl. split; [lia|]. split; [lia|reflexivity].
  - intros k. rewrite (Ho eq_refl). intros Hs.
    destruct (Hk k Hs) as (i & j & Hi & Hj & ->).
    exists i, j. split; [lia|]. split; [lia|reflexivity].
Qed.

Lemma keys_generated_run (es : list Event) :
  keys_generated rnd clk (run rnd clk fl es empty_world).
Proof.
  apply run_invariant.
  - intros e w. apply keys_generated_step.
  - intros k [x Hx]. simpl in Hx. rewrite lookup_empty in Hx. discriminate.
Qed.

(** C5, as amended: [CreateOrder] answers every request with the order it
    has built and stored.  The identifier is the one the generator returns;
    the object is a new one; each field of the request is echoed when set
    and replaced by its default otherwise (579, the demo subject,
    ["****7061"]), the bank name is fixed, the status is [pending],
    [createTime] is the clock reading and [payTime] is absent; the order is
    stored under its identifier and no other key is touched.  In every state
    the server can reach, the identifier is not a key of the order map when
    the pair of its clock reading and random digits differs from the pair of
    every earlier reading and draw, the readings having as many digits. *)
Theorem CreateOrder_never_fails :
  (forall (a s b : JsVal) (w : World),
      exists (o : Order.t) (w' : World),
        CreateOrder rnd clk fl a s b w =
          (Some (Envelope 200 true 0 (Some "订单创建成功")
                   (Some (DataOrder o))), w')
        /\ Order.orderId o = fst (generateOrderId rnd clk w)
        /\ Order.amount o = (if truthy a then a else JNum 579)
        /\ Order.subject o =
             (if truthy s then s
              else JStr "罗技大师系列MX Master 3s无线蓝牙双模鼠标")
        /\ Order.bankCard o = (if truthy b then b else JStr "****7061")
        /\ Order.bankName o = "中国建设银行"
        /\ Order.status o = pending
        /\ Order.createTime o = ISO (clk (S (clock_ix w)))
        /\ Order.payTime o = None
        /\ stored w' (Order.orderId o) (length (heap w)) o
        /\ payments w' = payments w
        /\ truthy JUndefined = false
        /\ heap w !! length (heap w) = None
        /\ (forall k, k <> Order.orderId o -> orders w' !! k = orders w !! k))
  /\ (forall es : list Event,
        let w := run rnd clk fl es empty_world in
        let t := clk (clock_ix w) in
        let x := toString36_substr_2_9 (rnd (random_ix w)) in
        (forall i j, i < clock_ix w -> j < random_ix w ->
            String.length (pretty (clk i)) = String.length (pretty t)
            /\ (clk i <> t \/ toString36_substr_2_9 (rnd j) <> x)) ->
        orders w !! fst (generateOrderId rnd clk w) = None).
Proof.
  split.
  - intros a s b w. eexists. eexists. split; [apply CreateOrder_run|].
    unfold stored. simpl.
    repeat (split; [reflexivity|]).
    split; [split|].
    + apply lookup_insert_eq.
    + rewrite lookup_app_r by lia. now rewrite Nat.sub_diag.
    + split; [reflexivity|]. split; [reflexivity|].
      split; [now apply lookup_ge_None|].
      intros k Hk. now apply lookup_insert_ne.
  - intros es. cbv zeta. intros Hnew.
    apply eq_None_not_Some. intros Hs.
    destruct (keys_generated_run es _ Hs) as (i & j & Hi & Hj & Heq).
    destruct (Hnew i j Hi Hj) as [Hlen Hdiff].
    unfold generateOrderId in Heq. revert Heq. exec. intros Heq.
    apply (string_app_inj_length "ORDER" "ORDER") in Heq as [_ Heq];
      [|reflexivity].
    apply string_app_inj_length in Heq as [Ht Hx]; [|now symmetry].
    apply (inj pretty) in Ht. destruct Hdiff as [Hd|Hd]; congruence.
Qed.

(** ** Identifiers *)

(** C6, as amended: the generator of order identifiers returns ["ORDER"]
    followed by the decimal clock reading and by at most nine base-36
    digits of a random number.  Two calls whose clock readings have the
    same number of digits return the same identifier exactly when the
    readings are equal and the random digits are equal. *)
Theorem generateOrderId_components (w1 w2 : World) :
  let t1 := clk (clock_ix w1) in
  let t2 := clk (clock_ix w2) in
  let x1 := toString36_substr_2_9 (rnd (random_ix w1)) in
  let x2 := toString36_substr_2_9 (rnd (random_ix w2)) in
  fst (generateOrderId rnd clk w1) = "ORDER" +:+ pretty t1 +:+ x1
  /\ String.length x1 <= 9
  /\ (String.length (pretty t1) = String.length (pretty t2) ->
      fst (generateOrderId rnd clk w1) = fst (generateOrderId rnd clk w2)
      <-> t1 = t2 /\ x1 = x2).
Proof.
  cbv zeta. split; [reflexivity|]. split; [apply frac36_length|].
  intros Hlen. unfold generateOrderId. exec. split.
  - intros Heq.
    apply (string_app_inj_length "ORDER" "ORDER") in Heq as [_ Heq];
      [|reflexivity].
    apply string_app_inj_length in Heq as [Ht Hx]; [|exact Hlen].
    split; [|exact Hx]. now apply (inj pretty).
  - now intros [-> ->].
Qed.

(** ** Delays *)

(** C8: for every operation, and for the three operations on an order
    whenever the order is found, the handler draws a random number and
    passes to [setTimeout] the delay computed from it as the code does: the
    random number times the width of the documented range, rounded, plus the
    lower end, rounded.  When every random number lies in [0, 1) and the
    rounding is monotone and leaves integers up to 2^53 as they are (as
    rounding to the nearest double does), the delay lies between the two
    ends of the documented range, both included.  No other request has a
    delay. *)
Theorem sampled_delay_in_range :
  (forall n, (0 <= rnd n)%Q /\ (rnd n < 1)%Q) ->
  (forall x y : Q, (x <= y)%Q -> (fl x <= fl y)%Q) ->
  (forall z : Z, (Z.abs z <= 2 ^ 53)%Z -> (fl (inject_Z z) == inject_Z z)%Q) ->
  (forall req w,
      delayed req w ->
      exists (d lo hi : Q) (cb : Callback) (w' : World),
        handle rnd clk fl req w = (None, w')
        /\ timers w' = timers w ++ [(d, cb)]
        /\ random_ix w < random_ix w'
        /\ documented_delay_range req = Some (lo, hi)
        /\ d = fl (fl (rnd (pred (random_ix w')) * (hi - lo)) + lo)%Q
        /\ (lo <= d)%Q /\ (d <= hi)%Q)
  /\ (forall req w w', handle rnd clk fl req w = (None, w') -> delayed req w).
Proof.
  intros Hrnd Hmono Hex.
  assert (Hin : forall (r : Q) (W lo : Z),
             (0 <= r)%Q -> (r < 1)%Q -> (0 <= W)%Z ->
             (Z.abs W <= 2 ^ 53)%Z -> (Z.abs lo <= 2 ^ 53)%Z ->
             (Z.abs (lo + W) <= 2 ^ 53)%Z ->
             (inject_Z lo <= fl (fl (r * inject_Z W) + inject_Z lo))%Q
             /\ (fl (fl (r * inject_Z W) + inject_Z lo)
                 <= inject_Z (lo + W))%Q).
  { intros r W lo H0 H1 HW HaW Halo Hahi.
    assert (HWq : (0 <= inject_Z W)%Q).
    { change 0%Q with (inject_Z 0). now rewrite <- Zle_Qle. }
    assert (A1 : (0 <= r * inject_Z W)%Q) by now apply Qmult_le_0_compat.
    assert (A2 : (r * inject_Z W <= inject_Z W)%Q).
    { rewrite <- (Qmult_1_l (inject_Z W)) at 2.
      apply Qmult_le_compat_r; [now apply Qlt_le_weak|exact HWq]. }
    apply Hmono in A1, A2.
    pose proof (Hex 0%Z ltac:(small)) as E0.
    pose proof (Hex W HaW) as EW. pose proof (Hex lo Halo) as Elo.
    pose proof (Hex (lo + W)%Z Hahi) as Ehi.
    change (inject_Z 0) with 0%Q in E0.
    rewrite E0 in A1. rewrite EW in A2.
    set (x := fl (r * inject_Z W)) in *.
    assert (B1 : (inject_Z lo <= x + inject_Z lo)%Q) by lra.
    assert (B2 : (x + inject_Z lo <= inject_Z (lo + W))%Q).
    { rewrite inject_Z_plus. lra. }
    apply Hmono in B1, B2. rewrite Elo in B1. rewrite Ehi in B2.
    now split. }
  split.
  - intros req w Hd. destruct w as [h os ps ts ri ci].
    destruct req as [a s b|s|k pw|s| |]; simpl in Hd.
    + destruct (Hrnd (S ri)) as [H0 H1].
      destruct (Hin (rnd (S ri)) 150%Z 50%Z H0 H1 ltac:(small) ltac:(small)
                  ltac:(small) ltac:(small)) as [Hlo Hhi].
      eexists _, 50%Q, 200%Q, _, _. simpl.
      unfold payment_create, generateOrderId. exec.
      split; [reflexivity|]. split; [reflexivity|]. split; [simpl; lia|].
      split; [reflexivity|]. split; [reflexivity|]. split; assumption.
    + destruct Hd as [l Hl]. destruct (Hrnd ri) as [H0 H1].
      destruct (Hin (rnd ri) 100%Z 30%Z H0 H1 ltac:(small) ltac:(small)
                  ltac:(small) ltac:(small)) as [Hlo Hhi].
      eexists _, 30%Q, 130%Q, _, _. simpl.
      unfold payment_info. exec. simpl in Hl. rewrite Hl. exec.
      split; [reflexivity|]. split; [reflexivity|]. split; [simpl; lia|].
      split; [reflexivity|]. split; [reflexivity|]. split; assumption.
    + destruct Hd as (s & -> & l & Hl). destruct (Hrnd (S ri)) as [H0 H1].
      destruct (Hin (rnd (S ri)) 400%Z 100%Z H0 H1 ltac:(small) ltac:(small)
                  ltac:(small) ltac:(small)) as [Hlo Hhi].
      eexists _, 100%Q, 500%Q, _, _. simpl.
      unfold payment_validate. exec. simpl in Hl. rewrite Hl. exec.
      split; [reflexivity|]. split; [reflexivity|]. split; [simpl; lia|].
      split; [reflexivity|]. split; [reflexivity|]. split; assumption.
    + destruct Hd as [l Hl]. destruct (Hrnd ri) as [H0 H1].
      destruct (Hin (rnd ri) 80%Z 20%Z H0 H1 ltac:(small) ltac:(small)
                  ltac:(small) ltac:(small)) as [Hlo Hhi].
      eexists _, 20%Q, 100%Q, _, _. simpl.
      unfold payment_query. exec. simpl in Hl. rewrite Hl. exec.
      split; [reflexivity|]. split; [reflexivity|]. split; [simpl; lia|].
      split; [reflexivity|]. split; [reflexivity|]. split; assumption.
    + destruct (Hrnd ri) as [H0 H1].
      destruct (Hin (rnd ri) 50%Z 10%Z H0 H1 ltac:(small) ltac:(small)
                  ltac:(small) ltac:(small)) as [Hlo Hhi].
      eexists _, 10%Q, 60%Q, _, _. simpl.
      unfold security_check. exec.
      split; [reflexivity|]. split; [reflexivity|]. split; [simpl; lia|].
      split; [reflexivity|]. split; [reflexivity|]. split; assumption.
    + destruct Hd.
  - intros req w w'. destruct w as [h os ps ts ri ci].
    destruct req as [a s b|s|k pw|s| |]; simpl.
    + intros _. exact I.
    + unfold payment_info. exec.
      destruct (os !! s) eqn:E; [|discriminate]. intros _.
      unfold is_Some. eexists. reflexivity.
    + unfold payment_validate. exec.
      destruct k as [| | | |s| |]; try discriminate.
      destruct (os !! s) eqn:E; [|discriminate]. intros _.
      exists s. split; [reflexivity|]. simpl. rewrite E.
      unfold is_Some. eexists. reflexivity.
    + unfold payment_query. exec.
      destruct (os !! s) eqn:E; [|discriminate]. intros _.
      unfold is_Some. eexists. reflexivity.
    + intros _. exact I.
    + discriminate.
Qed.

End Properties.

(** ** The theorems at sample inputs *)

Lemma CreateOrder_falsy_defaults_witness :
  exists o, heap (snd (CreateOrder half_random ticking_clock no_rounding
                         (JNum 0) (JStr "") (JStr "") empty_world)) !! 0%nat
            = Some o
            /\ Order.amount o = JNum 579
            /\ Order.bankCard o = JStr "****7061".
Proof.
  destruct (CreateOrder_falsy_defaults half_random ticking_clock no_rounding
              (JNum 0) (JStr "") (JStr "") empty_world)
    as (o & w' & Hrun & [_ Hheap] & Ha & _ & Hb & _).
  exists o. rewrite Hrun. simpl in *.
  split; [exact Hheap|].
  split; [apply Ha | apply Hb]; reflexivity.
Defined.

Lemma unknown_order_not_found_witness :
  orders one_order !! "ORDER0" = None
  /\ unknown JNull one_order
  /\ fst (ValidateCredential half_random ticking_clock no_rounding JNull (JStr "123456")
            one_order)
     = Some (Envelope 404 false 404 (Some "订单不存在") None).
Proof.
  assert (H1 : orders one_order !! "ORDER0" = None) by (vm_compute; reflexivity).
  assert (H2 : unknown JNull one_order) by (intros s; discriminate).
  split; [exact H1|]. split; [exact H2|].
  destruct (unknown_order_not_found half_random ticking_clock no_rounding
              "ORDER0" JNull (JStr "123456") one_order H1 H2)
    as (_ & _ & Hv & _).
  now rewrite Hv.
Defined.

Lemma ValidateCredential_outcome_witness :
  let w := one_order in
  let out := ValidateCredential half_random ticking_clock no_rounding
               (JStr "ORDER1700000000000i") (JStr "123456") w in
  exists o,
    stored w "ORDER1700000000000i" 0 o
    /\ (fst out = Some (Envelope 200 false 1001 (Some "支付密码错误")
                          (Some DataNull))
        <-> (half_random (random_ix w) < 5 # 100)%Q
            \/ JStr "123456" <> JStr "123456").
Proof.
  cbv zeta.
  destruct (heap one_order !! 0%nat) as [o|] eqn:E;
    [|vm_compute in E; discriminate].
  assert (H : stored one_order "ORDER1700000000000i" 0 o).
  { split; [vm_compute; reflexivity | exact E]. }
  exists o. split; [exact H|].
  exact (proj1 (ValidateCredential_outcome half_random ticking_clock no_rounding
                  "ORDER1700000000000i" (JStr "123456") one_order 0 o H)).
Defined.

Lemma payTime_present_iff_success_witness :
  let w := run half_random ticking_clock no_rounding settled_twice empty_world in
  exists o,
    stored w "ORDER1700000000000i" 0 o
    /\ (is_Some (Order.payTime o) <-> Order.status o = success).
Proof.
  cbv zeta.
  destruct (heap (run half_random ticking_clock no_rounding settled_twice empty_world)
              !! 0%nat) as [o|] eqn:E;
    [|vm_compute in E; discriminate].
  assert (H : stored (run half_random ticking_clock no_rounding settled_twice empty_world)
                "ORDER1700000000000i" 0 o).
  { split; [vm_compute; reflexivity | exact E]. }
  exists o. split; [exact H|].
  exact (proj1 (payTime_present_iff_success half_random ticking_clock no_rounding)
           settled_twice "ORDER1700000000000i" 0%nat o H).
Defined.

Lemma Stats_reports_sizes_witness :
  fst (Stats half_random ticking_clock no_rounding empty_world)
  = Some (StatsBody 0 0 0%Q).
Proof.
  destruct (Stats_reports_sizes half_random ticking_clock no_rounding [])
    as (rate & H1 & _ & _ & Hz).
  simpl in H1, Hz. rewrite H1. simpl.
  rewrite (Hz (map_size_empty (M := gmap string))). reflexivity.
Defined.

Lemma sampled_delay_in_range_witness :
  (forall n, (0 <= half_random n)%Q /\ (half_random n < 1)%Q)
  /\ (forall x y : Q, (x <= y)%Q -> (no_rounding x <= no_rounding y)%Q)
  /\ (forall z : Z, (Z.abs z <= 2 ^ 53)%Z ->
                    (no_rounding (inject_Z z) == inject_Z z)%Q)
  /\ delayed (POST_payment_validate (JStr "ORDER1700000000000i")
                                    (JStr "123456")) one_order
  /\ exists d cb w',
      handle half_random ticking_clock no_rounding
        (POST_payment_validate (JStr "ORDER1700000000000i") (JStr "123456"))
        one_order = (None, w')
      /\ timers w' = timers one_order ++ [(d, cb)]
      /\ (100 <= d)%Q /\ (d <= 500)%Q.
Proof.
  assert (Hrnd : forall n, (0 <= half_random n)%Q /\ (half_random n < 1)%Q).
  { intros n. unfold half_random. split; lra. }
  assert (Hmono : forall x y : Q,
             (x <= y)%Q -> (no_rounding x <= no_rounding y)%Q).
  { intros x y H. exact H. }
  assert (Hex : forall z : Z, (Z.abs z <= 2 ^ 53)%Z ->
                              (no_rounding (inject_Z z) == inject_Z z)%Q).
  { intros z _. reflexivity. }
  assert (Hd : delayed (POST_payment_validate (JStr "ORDER1700000000000i")
                                              (JStr "123456")) one_order).
  { exists "ORDER1700000000000i". split; [reflexivity|].
    exists 0%nat. vm_compute. reflexivity. }
  split; [exact Hrnd|]. split; [exact Hmono|]. split; [exact Hex|].
  split; [exact Hd|].
  destruct (proj1 (sampled_delay_in_range half_random ticking_clock
                     no_rounding Hrnd Hmono Hex) _ _ Hd)
    as (d & lo & hi & cb & w' & Hh & Ht & _ & Hr & _ & Hlo & Hhi).
  injection Hr as <- <-.
  exists d, cb, w'. exact (conj Hh (conj Ht (conj Hlo Hhi))).
Defined.

(** C5, as stated, fails when the clock reading and the random number of a
    request repeat those of the request that created a stored order: the
    order returned carries the identifier of the stored one and takes its
    key over. *)
Lemma CreateOrder_reuses_stored_id :
  let w1 := snd (CreateOrder half_random frozen_clock no_rounding
                   JUndefined JUndefined JUndefined empty_world) in
  exists o w2,
    CreateOrder half_random frozen_clock no_rounding
      (JNum 1) JUndefined JUndefined w1 =
      (Some (Envelope 200 true 0 (Some "订单创建成功")
               (Some (DataOrder o))), w2)
    /\ orders w1 !! Order.orderId o = Some 0%nat
    /\ size (orders w2) = 1%nat.
Proof.
  cbv zeta. eexists. eexists. split; [apply CreateOrder_run|].
  split; vm_compute; reflexivity.
Qed.

Lemma CreateOrder_never_fails_witness :
  let w := run half_random ticking_clock no_rounding settled_once empty_world in
  (forall i j, i < clock_ix w -> j < random_ix w ->
      String.length (pretty (ticking_clock i))
      = String.length (pretty (ticking_clock (clock_ix w)))
      /\ (ticking_clock i <> ticking_clock (clock_ix w)
          \/ toString36_substr_2_9 (half_random j)
             <> toString36_substr_2_9 (half_random (random_ix w))))
  /\ orders w !! fst (generateOrderId half_random ticking_clock w) = None.
Proof.
  cbv zeta.
  assert (Hc : clock_ix (run half_random ticking_clock no_rounding settled_once
                           empty_world) = 4%nat) by (vm_compute; reflexivity).
  assert (H : forall i j,
             i < clock_ix (run half_random ticking_clock no_rounding
                             settled_once empty_world) ->
             j < random_ix (run half_random ticking_clock no_rounding
                              settled_once empty_world) ->
             String.length (pretty (ticking_clock i))
             = String.length
                 (pretty (ticking_clock
                            (clock_ix (run half_random ticking_clock
                                         no_rounding settled_once
                                         empty_world))))
             /\ (ticking_clock i
                 <> ticking_clock
                      (clock_ix (run half_random ticking_clock no_rounding
                                   settled_once empty_world))
                 \/ toString36_substr_2_9 (half_random j)
                    <> toString36_substr_2_9
                         (half_random
                            (random_ix (run half_random ticking_clock
                                          no_rounding settled_once
                                          empty_world))))).
  { intros i j Hi _. rewrite Hc in *.
    do 4 (destruct i as [|i]; [split; [vm_compute; reflexivity|left];
                               vm_compute; discriminate|]).
    lia. }
  split; [exact H|].
  exact (proj2 (CreateOrder_never_fails half_random ticking_clock no_rounding)
           settled_once H).
Defined.

(** C2, as stated, fails after a second accepted validation of the same
    order: the run creates no identifier twice, yet leaves two payment
    records for the one order. *)
Lemma second_validation_second_payment :
  let w := run half_random ticking_clock no_rounding settled_twice empty_world in
  fresh_run half_random ticking_clock no_rounding settled_twice empty_world = true
  /\ ~ (payment_iff_success w /\ at_most_one_payment w).
Proof.
  cbv zeta. split; [vm_compute; reflexivity|].
  intros [_ Hone].
  set (w := run half_random ticking_clock no_rounding settled_twice empty_world) in *.
  destruct (payments w !! "PAY1700000000003") as [p1|] eqn:E1;
    [|vm_compute in E1; discriminate].
  destruct (payments w !! "PAY1700000000005") as [p2|] eqn:E2;
    [|vm_compute in E2; discriminate].
  assert (Hsame : Payment.orderId p1 = Payment.orderId p2).
  { vm_compute in E1, E2. injection E1 as <-. injection E2 as <-.
    reflexivity. }
  pose proof (Hone _ _ _ _ E1 E2 Hsame) as Heq. discriminate Heq.
Qed.

Lemma payments_match_settled_orders_witness :
  let w := run half_random ticking_clock no_rounding settled_once empty_world in
  fresh_run half_random ticking_clock no_rounding settled_once empty_world
  = true
  /\ settles_once_run half_random ticking_clock no_rounding settled_once
       empty_world = true
  /\ payment_iff_success w
  /\ at_most_one_payment w.
Proof.
  cbv zeta.
  assert (H : fresh_run half_random ticking_clock no_rounding settled_once
                empty_world = true) by (vm_compute; reflexivity).
  assert (H' : settles_once_run half_random ticking_clock no_rounding
                 settled_once empty_world = true) by (vm_compute; reflexivity).
  split; [exact H|]. split; [exact H'|].
  destruct (payments_match_settled_orders half_random ticking_clock
              no_rounding settled_once H) as (_ & H1 & H2 & _).
  exact (conj H1 (H2 H')).
Defined.

(** C6, as stated, fails when the clock reading and the random number of a
    call repeat those of an earlier call: the generator returns the
    identifier under which the earlier order is stored. *)
Lemma generateOrderId_repeats :
  let w1 := snd (CreateOrder half_random frozen_clock no_rounding
                   JUndefined JUndefined JUndefined empty_world) in
  fst (generateOrderId half_random frozen_clock w1)
  = fst (generateOrderId half_random frozen_clock empty_world)
  /\ orders w1 !! fst (generateOrderId half_random frozen_clock w1)
     = Some 0%nat.
Proof. cbv zeta. split; vm_compute; reflexivity. Qed.

Lemma generateOrderId_components_witness :
  let id1 := fst (generateOrderId half_random ticking_clock empty_world) in
  let id2 := fst (generateOrderId half_random ticking_clock one_order) in
  String.length (pretty (ticking_clock 0)) =
  String.length (pretty (ticking_clock 2))
  /\ (id1 = id2 <->
      ticking_clock 0 = ticking_clock 2
      /\ toString36_substr_2_9 (half_random 0)
         = toString36_substr_2_9 (half_random 2)).
Proof.
  cbv zeta.
  assert (H : String.length (pretty (ticking_clock 0)) =
              String.length (pretty (ticking_clock 2)))
    by (vm_compute; reflexivity).
  split; [exact H|].
  exact (proj2 (proj2 (generateOrderId_components half_random ticking_clock
                         empty_world one_order)) H).
Defined.

(** Payment identifiers carry the clock reading only: two orders settled
    within one reading share the identifier, and the second payment record
    replaces the first. *)
Example payment_record_replaced :
  let w := run shrinking_random frozen_clock no_rounding two_orders_one_instant
             empty_world in
  size (orders w) = 2
  /\ (Order.status <$> heap w) = [success; success]
  /\ size (payments w) = 1
  /\ (Payment.orderId <$> payments w !! "PAY1700000000000")
     = Some "ORDER17000000000009".
Proof. cbv zeta. repeat split; vm_compute; reflexivity. Qed.


(** * Further properties of the handlers *)

Lemma Qltb_ge (a b : Q) : (b <= a)%Q -> Qltb a b = false.
Proof.
  intros H. unfold Qltb. apply negb_false_iff. now apply Qle_bool_iff.
Qed.

Lemma lookup_snoc_length {A} (l : list A) (x : A) :
  (l ++ [x]) !! length l = Some x.
Proof. rewrite lookup_app_r by lia. now rewrite Nat.sub_diag. Qed.

Lemma delete_snoc_length {A} (l : list A) (x : A) :
  delete (length l) (l ++ [x]) = l.
Proof. rewrite delete_middle. apply app_nil_r. Qed.

Lemma lookup_snoc2_length {A} (l : list A) (x y : A) :
  ((l ++ [x]) ++ [y]) !! S (length l) = Some y.
Proof.
  replace (S (length l)) with (length (l ++ [x]))
    by (rewrite length_app; simpl; lia).
  apply lookup_snoc_length.
Qed.

Lemma delete_snoc2_length {A} (l : list A) (x y : A) :
  delete (S (length l)) ((l ++ [x]) ++ [y]) = l ++ [x].
Proof.
  replace (S (length l)) with (length (l ++ [x]))
    by (rewrite length_app; simpl; lia).
  apply delete_snoc_length.
Qed.

Section Further.

Variable rnd : nat -> Q.
Variable clk : nat -> Z.
Variable fl : Q -> Q.

(** ** Requests in sequence *)

(** X1: the order that [CreateOrder] returns is the one that [GetOrderInfo]
    returns for its identifier right afterwards, and [QueryResult] reports
    it as [pending] with its amount and no [payTime] — also when the
    identifier was already in use before. *)
Theorem CreateOrder_then_read (a s b : JsVal) (w : World) :
  exists (o : Order.t) (w1 : World),
    CreateOrder rnd clk fl a s b w =
      (Some (Envelope 200 true 0 (Some "订单创建成功")
               (Some (DataOrder o))), w1)
    /\ fst (GetOrderInfo rnd clk fl (Order.orderId o) w1) =
         Some (Envelope 200 true 0 None (Some (DataOrder o)))
    /\ fst (QueryResult rnd clk fl (Order.orderId o) w1) =
         Some (Envelope 200 true 0 None
                 (Some (DataQuery (Order.orderId o) pending
                                  (Order.amount o) None))).
Proof.
  eexists. eexists. split; [apply CreateOrder_run|].
  match goal with
  | |- context [DataOrder ?x] => set (o0 := x)
  end.
  match goal with
  | |- context [GetOrderInfo _ _ _ _ ?x] => set (w1 := x)
  end.
  assert (Hst : stored w1 (Order.orderId o0) (length (heap w)) o0).
  { split; simpl; [apply lookup_insert_eq|apply lookup_snoc_length]. }
  split.
  - now rewrite (GetOrderInfo_run rnd clk fl _ _ _ _ Hst).
  - now rewrite (QueryResult_run rnd clk fl _ _ _ _ Hst).
Qed.

(** X2: an order that has just been created and is then validated with
    ["123456"], the random failure not being drawn, is reported by
    [QueryResult] as [success], with the amount given at creation and the
    [payTime] of the payment that the validation returned. *)
Theorem create_validate_query (a s b : JsVal) (w : World) :
  (5 # 100 <= rnd (S (S (random_ix w))))%Q ->
  exists (o : Order.t) (p : Payment.t) (t : DateString) (w1 w2 : World),
    CreateOrder rnd clk fl a s b w =
      (Some (Envelope 200 true 0 (Some "订单创建成功")
               (Some (DataOrder o))), w1)
    /\ ValidateCredential rnd clk fl (JStr (Order.orderId o)) (JStr "123456") w1 =
         (Some (Envelope 200 true 0 (Some "支付成功")
                  (Some (DataPayment p))), w2)
    /\ Payment.orderId p = Order.orderId o
    /\ Payment.amount p = Order.amount o
    /\ Payment.payTime p = Some t
    /\ fst (QueryResult rnd clk fl (Order.orderId o) w2) =
         Some (Envelope 200 true 0 None
                 (Some (DataQuery (Order.orderId o) success
                                  (Order.amount o) (Some t)))).
Proof.
  intros Hr. eexists. eexists. eexists. eexists. eexists.
  split; [apply CreateOrder_run|].
  match goal with
  | |- context [DataQuery (Order.orderId ?x)] => set (o0 := x)
  end.
  match goal with
  | |- context [ValidateCredential _ _ _ _ _ ?x] => set (w1 := x)
  end.
  assert (Hst : stored w1 (Order.orderId o0) (length (heap w)) o0).
  { split; simpl; [apply lookup_insert_eq|apply lookup_snoc_length]. }
  rewrite (ValidateCredential_run rnd clk fl _ _ _ _ _ Hst).
  simpl random_ix. rewrite (Qltb_ge _ _ Hr). simpl.
  split; [reflexivity|]. simpl.
  split; [reflexivity|]. split; [reflexivity|]. split; [reflexivity|].
  match goal with
  | |- context [QueryResult _ _ _ _ ?x] => set (w2 := x)
  end.
  assert (Hst2 : stored w2 (Order.orderId o0) (length (heap w))
                   (settle (ISO (clk (S (S (clock_ix w))))) o0)).
  { split; simpl; [apply lookup_insert_eq|].
    apply list_lookup_insert_eq. rewrite length_app. simpl. lia. }
  exact (f_equal fst (QueryResult_run rnd clk fl _ _ _ _ Hst2)).
Qed.

(** X3: a rejected validation does not stand in the way of a later one:
    after a wrong password has been rejected, the same order validated with
    ["123456"], the random failure not being drawn, is settled as from the
    world before the rejection. *)
Theorem rejected_then_accepted (s : string) (pw : JsVal) (w : World)
    (l : ref) (o : Order.t) :
  stored w s l o ->
  pw <> JStr "123456" ->
  (5 # 100 <= rnd (S (S (random_ix w))))%Q ->
  exists (w1 w2 : World) (p : Payment.t) (o' : Order.t),
    ValidateCredential rnd clk fl (JStr s) pw w =
      (Some (Envelope 200 false 1001 (Some "支付密码错误") (Some DataNull)),
       w1)
    /\ same_stores w w1
    /\ ValidateCredential rnd clk fl (JStr s) (JStr "123456") w1 =
         (Some (Envelope 200 true 0 (Some "支付成功")
                  (Some (DataPayment p))), w2)
    /\ stored w2 s l o'
    /\ Order.status o' = success
    /\ Payment.orderId p = s
    /\ Payment.amount p = Order.amount o
    /\ Payment.payTime p = Order.payTime o'.
Proof.
  intros Hst Hpw Hr.
  assert (Hno : strict_eq_str pw "123456" = false).
  { destruct (strict_eq_str pw "123456") eqn:E; [|reflexivity].
    apply strict_eq_str_true in E. contradiction. }
  rewrite (ValidateCredential_run rnd clk fl s pw w l o Hst), Hno.
  rewrite orb_true_r.
  eexists. eexists. eexists. eexists.
  split; [reflexivity|]. split; [same_now|].
  assert (Hst1 : stored (with_random_ix (S (S (random_ix w))) w) s l o).
  { destruct Hst as [Hs Hl]. now split. }
  rewrite (ValidateCredential_run rnd clk fl s _ _ l o Hst1).
  simpl random_ix. rewrite (Qltb_ge _ _ Hr). simpl.
  split; [reflexivity|]. destruct Hst as [Hs Hl].
  split; [split; simpl; [exact Hs|]|].
  - apply list_lookup_insert_eq. now apply lookup_lt_Some in Hl.
  - repeat (split; [reflexivity|]). reflexivity.
Qed.

(** ** Replies that are sent later *)

(** X4: a reply carries the order as it is when the reply is sent.  When
    [GetOrderInfo] is asked, a validation of the same order is then asked and
    accepted, and only then the first callback runs, that callback returns
    the order with status [success] and its [payTime]. *)
Theorem info_reply_after_settlement (s : string) (w : World)
    (l : ref) (o : Order.t) :
  stored w s l o ->
  (5 # 100 <= rnd (S (random_ix w)))%Q ->
  let n := length (timers w) in
  let w3 := run rnd clk fl
              [ Incoming (GET_payment_info s);
                Incoming (POST_payment_validate (JStr s) (JStr "123456"));
                TimerFires (S n) ] w in
  exists t : DateString,
    heap w3 !! l = Some (set_payTime t (set_status success o))
    /\ fst (step rnd clk fl (TimerFires n) w3) =
         Some (Envelope 200 true 0 None
                 (Some (DataOrder (set_payTime t (set_status success o))))).
Proof.
  intros [Hs Hl] Hr. destruct w as [h os ps ts ri ci]. simpl in *.
  exists (ISO (clk ci)).
  unfold payment_info, payment_validate. exec. rewrite Hs. exec.
  rewrite Hs. exec.
  rewrite lookup_snoc2_length, delete_snoc2_length.
  rewrite (Qltb_ge _ _ Hr). unfold run_callback, validate_callback. exec.
  rewrite list_alter_alter_eq, list_lookup_alter_eq, Hl. simpl.
  split; [now rewrite list_lookup_alter_eq, Hl|].
  rewrite lookup_snoc_length, delete_snoc_length.
  unfold reply_with_order. exec.
  now rewrite list_lookup_alter_eq, Hl.
Qed.

(** ** What a run keeps *)

Lemma later_state_refl (o : Order.t) : later_state o o.
Proof. now repeat split. Qed.

Lemma later_state_trans (o1 o2 o3 : Order.t) :
  later_state o1 o2 -> later_state o2 o3 -> later_state o1 o3.
Proof.
  intros (a1 & a2 & a3 & a4 & a5 & a6 & a7 & a8)
         (b1 & b2 & b3 & b4 & b5 & b6 & b7 & b8).
  repeat split; try congruence; auto.
Qed.

Lemma later_state_settle (t : DateString) (o : Order.t) :
  later_state o (settle t o).
Proof. repeat split. intros _. now exists t. Qed.

Lemma later_state_effect (e : Event) (w w' : World) :
  Effect rnd clk e w w' ->
  forall l o, heap w !! l = Some o ->
  exists o', heap w' !! l = Some o' /\ later_state o o'.
Proof.
  intros Heff l0 o0 Hl0.
  destruct Heff as [a s b w o d ri ci Hid Hst Hpt| | | | |i w d l id o Hi Hl|];
    simpl; try (exists o0; split; [exact Hl0|apply later_state_refl]).
  - exists o0. split; [now apply lookup_app_l_Some|apply later_state_refl].
  - destruct (decide (l = l0)) as [<-|Hne].
    + exists (settle (ISO (clk (clock_ix w))) o). split.
      * apply list_lookup_insert_eq. now apply lookup_lt_Some in Hl.
      * rewrite Hl in Hl0. injection Hl0 as <-. apply later_state_settle.
    + exists o0. split; [|apply later_state_refl].
      now rewrite list_lookup_insert_ne.
Qed.

Lemma grow_effect (e : Event) (w w' : World) :
  Effect rnd clk e w w' ->
  dom (orders w) ⊆@{gset string} dom (orders w')
  /\ dom (payments w) ⊆@{gset string} dom (payments w')
  /\ length (heap w) <= length (heap w').
Proof.
  intros Heff.
  destruct Heff as [a s b w o d ri ci Hid Hst Hpt| | | | |i w d l id o Hi Hl|];
    simpl; try (split; [reflexivity|split; [reflexivity|lia]]).
  - split; [apply dom_insert_subseteq|]. split; [reflexivity|].
    rewrite length_app. lia.
  - split; [reflexivity|]. split; [apply dom_insert_subseteq|].
    rewrite length_insert. lia.
Qed.

(** X5: nothing is ever removed.  Along any sequence of events, from any
    world, the keys of the order map and of the payment map stay, no order
    object disappears, and the two counts that [Stats] reports do not
    decrease. *)
Theorem stores_only_grow (es : list Event) (w : World) :
  let w' := run rnd clk fl es w in
  dom (orders w) ⊆@{gset string} dom (orders w')
  /\ dom (payments w) ⊆@{gset string} dom (payments w')
  /\ length (heap w) <= length (heap w')
  /\ size (orders w) <= size (orders w')
  /\ size (payments w) <= size (payments w').
Proof.
  cbv zeta.
  assert (H : dom (orders w) ⊆@{gset string} dom (orders (run rnd clk fl es w))
              /\ dom (payments w)
                   ⊆@{gset string} dom (payments (run rnd clk fl es w))
              /\ length (heap w) <= length (heap (run rnd clk fl es w))).
  { revert w. induction es as [|e es IH]; intros w; simpl.
    - split; [reflexivity|split; [reflexivity|lia]].
    - destruct (grow_effect e w _ (step_effect rnd clk fl e w)) as (g1 & g2 & g3).
      destruct (IH (snd (step rnd clk fl e w))) as (h1 & h2 & h3).
      split; [now transitivity (dom (orders (snd (step rnd clk fl e w))))|].
      split; [now transitivity (dom (payments (snd (step rnd clk fl e w))))|].
      lia. }
  destruct H as (H1 & H2 & H3).
  split; [exact H1|]. split; [exact H2|]. split; [exact H3|].
  rewrite <- !size_dom. split; now apply subseteq_size.
Qed.

(** X6: an order object is written at creation and by settlement only.
    Along any sequence of events, an object keeps its [orderId], [amount],
    [subject], [bankCard], [bankName] and [createTime]; once its status is
    [success] it stays [success], and once it has a [payTime] it has one. *)
Theorem order_fields_kept (es : list Event) (w : World) (l : ref)
    (o : Order.t) :
  heap w !! l = Some o ->
  exists o', heap (run rnd clk fl es w) !! l = Some o' /\ later_state o o'.
Proof.
  revert w o. induction es as [|e es IH]; intros w o Hl; simpl.
  - exists o. split; [exact Hl|apply later_state_refl].
  - destruct (later_state_effect e w _ (step_effect rnd clk fl e w) l o Hl)
      as (o1 & Hl1 & Hls1).
    destruct (IH _ o1 Hl1) as (o2 & Hl2 & Hls2).
    exists o2. split; [exact Hl2|]. now apply later_state_trans with o1.
Qed.

(** ** Payment records *)

Lemma records_effect (e : Event) (w w' : World) :
  Effect rnd clk e w w' ->
  refs_valid w -> validations_known w ->
  (forall pid p, payments w !! pid = Some p -> payment_record_ok w pid p) ->
  validations_known w'
  /\ (forall pid p, payments w' !! pid = Some p -> payment_record_ok w' pid p).
Proof.
  intros Heff [Hord _] Hkn Hrec.
  destruct Heff as [a s b w o d ri ci Hid Hst Hpt
                   |req w d cb ri Hcap Hval
                   |req w
                   |i w Hi
                   |i w d cb Hi Hacc
                   |i w d l id o Hi Hl
                   |i w d l id Hi Hl];
    unfold validations_known, payment_record_ok in *; simpl in *.
  - (* a new order: keys stay, objects stay *)
    assert (Hkeys : forall k, is_Some (orders w !! k) ->
                is_Some (<[Order.orderId o := length (heap w)]> (orders w)
                         !! k)).
    { intros k Hk. apply lookup_insert_is_Some.
      destruct (decide (Order.orderId o = k)); [now left|now right]. }
    split.
    + apply Forall_app. split; [|constructor; [discriminate|constructor]].
      eapply Forall_impl; [exact Hkn|]. simpl.
      intros tm Htm l id rf ok Heq.
      destruct (Htm l id rf ok Heq) as (Hk & o1 & Ho1 & Hid1).
      split; [now apply Hkeys|]. exists o1.
      split; [now apply lookup_app_l_Some|exact Hid1].
    + intros pid q Hq.
      destruct (Hrec pid q Hq) as (r1 & r2 & r3 & r4 & l1 & o1 & Ho1 & r5).
      repeat (split; [assumption|]). split; [now apply Hkeys|].
      exists l1, o1. split; [now apply lookup_app_l_Some|exact r5].
  - split; [|exact Hrec].
    apply Forall_app. split; [exact Hkn|].
    constructor; [|constructor]. simpl. intros l id rf ok ->.
    pose proof (Hval l id rf ok eq_refl) as Hk.
    split; [now rewrite Hk|]. exact (Hord id l Hk).
  - now split.
  - now split.
  - split; [now apply Forall_delete|exact Hrec].
  - (* an accepted validation *)
    destruct (Forall_lookup_1 _ _ _ _ Hkn Hi l id false true eq_refl)
      as (Hk & o1 & Ho1 & Hid1).
    rewrite Hl in Ho1. injection Ho1 as <-.
    assert (Hobj : forall l1 o1,
               heap w !! l1 = Some o1 ->
               exists o2, <[l := settle (ISO (clk (clock_ix w))) o]> (heap w)
                          !! l1 = Some o2
                          /\ Order.orderId o2 = Order.orderId o1
                          /\ Order.amount o2 = Order.amount o1
                          /\ (Order.status o1 = success ->
                              Order.status o2 = success)).
    { intros l1 o1 Ho1. destruct (decide (l = l1)) as [<-|Hne].
      - rewrite Hl in Ho1. injection Ho1 as <-.
        exists (settle (ISO (clk (clock_ix w))) o). split; [|now repeat split].
        apply list_lookup_insert_eq. now apply lookup_lt_Some in Hl.
      - exists o1. split; [|now repeat split].
        now rewrite list_lookup_insert_ne. }
    split.
    + apply Forall_delete. eapply Forall_impl; [exact Hkn|]. simpl.
      intros tm Htm l1 id1 rf ok Heq.
      destruct (Htm l1 id1 rf ok Heq) as (Hk1 & o1 & Ho1 & Hio1).
      split; [exact Hk1|].
      destruct (Hobj l1 o1 Ho1) as (o2 & Ho2 & Hi2 & _).
      exists o2. split; [exact Ho2|congruence].
    + intros pid q. rewrite lookup_insert_Some.
      intros [[<- <-]|[Hne Hq]]; simpl.
      * split; [reflexivity|]. split; [reflexivity|].
        split; [now eexists|]. split; [exact Hk|].
        destruct (Hobj l o Hl) as (o2 & Ho2 & Hi2 & Ha2 & _).
        exists l, (settle (ISO (clk (clock_ix w))) o).
        split; [|now repeat split].
        apply list_lookup_insert_eq. now apply lookup_lt_Some in Hl.
      * destruct (Hrec pid q Hq)
          as (r1 & r2 & r3 & r4 & l1 & o1 & Ho1 & r5 & r6 & r7).
        repeat (split; [assumption|]).
        destruct (Hobj l1 o1 Ho1) as (o2 & Ho2 & Hi2 & Ha2 & Hs2).
        exists l1, o2. split; [exact Ho2|].
        split; [congruence|]. split; [now apply Hs2|congruence].
  - split; [now apply Forall_delete|exact Hrec].
Qed.

(** X7: every payment record the server holds, after any sequence of
    events, is stored under its own [paymentId], has status [success] and a
    [payTime], names an order identifier that is a key of the order map, and
    carries the amount of an order object created under that identifier
    whose status is [success]. *)
Theorem payment_records_sound (es : list Event) (pid : string)
    (p : Payment.t) :
  payments (run rnd clk fl es empty_world) !! pid = Some p ->
  payment_record_ok (run rnd clk fl es empty_world) pid p.
Proof.
  assert (H : forall es w,
             well_formed w -> validations_known w ->
             (forall pid p, payments w !! pid = Some p ->
                            payment_record_ok w pid p) ->
             forall pid p, payments (run rnd clk fl es w) !! pid = Some p ->
                           payment_record_ok (run rnd clk fl es w) pid p).
  { clear es pid p. induction es as [|e es IH]; intros w Hwf Hkn Hrec; simpl.
    - exact Hrec.
    - pose proof (step_effect rnd clk fl e w) as Heff.
      destruct (records_effect e w _ Heff (proj1 Hwf) Hkn Hrec) as [Hkn' Hrec'].
      apply IH; [|exact Hkn'|exact Hrec'].
      now apply (well_formed_effect rnd clk e w). }
  apply H.
  - apply well_formed_empty.
  - constructor.
  - intros pid' p'. simpl. rewrite lookup_empty. discriminate.
Qed.

(** ** Keys that repeat *)

(** X8: the callback of an accepted validation writes its record under
    ["PAY"] followed by the clock reading, and under nothing else.  When a
    record is already stored under that key, which is the case exactly when
    the reading repeats that of an earlier record, the earlier record is
    replaced and the number of payments stays the same; otherwise the number
    grows by one. *)
Theorem settlement_payment_key (i : nat) (w : World) (d : Q) (l : ref)
    (id : string) (o : Order.t) :
  timers w !! i = Some (d, ValidateReply l id false true) ->
  heap w !! l = Some o ->
  let w' := snd (step rnd clk fl (TimerFires i) w) in
  let pid := "PAY" +:+ pretty (clk (S (clock_ix w))) in
  (exists p, payments w' !! pid = Some p /\ Payment.orderId p = id
             /\ Payment.amount p = Order.amount o)
  /\ (forall k, k <> pid -> payments w' !! k = payments w !! k)
  /\ size (payments w') =
       match payments w !! pid with
       | Some _ => size (payments w)
       | None => S (size (payments w))
       end
  /\ (forall now : Z, "PAY" +:+ pretty now = pid <-> now = clk (S (clock_ix w))).
Proof.
  intros Hi Hl. cbv zeta. rewrite (settlement_step rnd clk fl i w d l id o Hi Hl). simpl.
  split; [|split; [|split]].
  - eexists. split; [apply lookup_insert_eq|now split].
  - intros k Hk. now apply lookup_insert_ne.
  - rewrite map_size_insert. now destruct (payments w !! _).
  - intros now. split.
    + intros Heq.
      apply (string_app_inj_length "PAY" "PAY") in Heq as [_ Heq];
        [|reflexivity].
      now apply (inj pretty).
    + now intros ->.
Qed.

(** X9: [CreateOrder] writes the new object under the generated identifier
    and touches no other key and no earlier object.  When the identifier is
    already a key, the key is moved to the new object, the earlier object
    stays in memory as it was, and the number of orders stays the same;
    otherwise the number grows by one. *)
Theorem CreateOrder_order_key (a s b : JsVal) (w : World) :
  let w' := snd (CreateOrder rnd clk fl a s b w) in
  let id := "ORDER" +:+ pretty (clk (clock_ix w))
            +:+ toString36_substr_2_9 (rnd (random_ix w)) in
  orders w' !! id = Some (length (heap w))
  /\ (forall k, k <> id -> orders w' !! k = orders w !! k)
  /\ (forall l o, heap w !! l = Some o -> heap w' !! l = Some o)
  /\ heap w !! length (heap w) = None
  /\ size (orders w') =
       match orders w !! id with
       | Some _ => size (orders w)
       | None => S (size (orders w))
       end
  /\ payments w' = payments w.
Proof.
  cbv zeta. rewrite CreateOrder_run. simpl.
  split; [apply lookup_insert_eq|].
  split; [intros k Hk; now apply lookup_insert_ne|].
  split; [intros l o Hl; now apply lookup_app_l_Some|].
  split; [now apply lookup_ge_None|].
  split; [|reflexivity].
  rewrite map_size_insert. now destruct (orders w !! _).
Qed.

(** ** Replies *)

Lemma envelope_shape_ok (message : option string) (d : Data) :
  d <> DataNull -> envelope_shape (json_ok message d).
Proof. intros Hd. left. repeat split. now exists d. Qed.

Lemma handle_reply_shape (req : Request) (w : World) (resp : Response) :
  fst (handle rnd clk fl req w) = Some resp ->
  (resp = not_found /\ req <> GET_stats)
  \/ (req = GET_stats /\ exists n m q, resp = StatsBody n m q).
Proof.
  destruct w as [h os ps ts ri ci].
  destruct req as [a s b|s|k pw|s| |]; simpl.
  - unfold payment_create, generateOrderId. exec. discriminate.
  - unfold payment_info. exec. destruct (os !! s); simpl; [discriminate|].
    intros [= <-]. now left.
  - unfold payment_validate. exec.
    destruct k as [| | | |s| |]; simpl;
      try (intros [= <-]; left; split; [reflexivity|discriminate]).
    destruct (os !! s); simpl; [discriminate|].
    intros [= <-]. now left.
  - unfold payment_query. exec. destruct (os !! s); simpl; [discriminate|].
    intros [= <-]. now left.
  - discriminate.
  - intros [= <-]. right. split; [reflexivity|]. now eexists _, _, _.
Qed.

Lemma run_callback_shape (cb : Callback) (w : World) (resp : Response) :
  fst (run_callback clk cb w) = Some resp -> 
  envelope_shape resp /\ forall n m q, resp <> StatsBody n m q.
Proof.
  destruct w as [h os ps ts ri ci].
  destruct cb as [l|l|l id rf ok|l|]; simpl.
  - unfold reply_with_order. exec. destruct (h !! l); simpl; [|discriminate].
    intros [= <-]. split; [now apply envelope_shape_ok|discriminate].
  - unfold reply_with_order. exec. destruct (h !! l); simpl; [|discriminate].
    intros [= <-]. split; [now apply envelope_shape_ok|discriminate].
  - unfold validate_callback. destruct (rf || negb ok); simpl.
    + intros [= <-]. split; [|discriminate]. right. left. now repeat split.
    + exec. destruct (alter _ l _ !! l); simpl; [|discriminate].
      intros [= <-]. split; [now apply envelope_shape_ok|discriminate].
  - unfold query_callback. exec. destruct (h !! l); simpl; [|discriminate].
    intros [= <-]. split; [now apply envelope_shape_ok|discriminate].
  - intros [= <-]. split; [now apply envelope_shape_ok|discriminate].
Qed.

(** X10: whatever the request and the state, a response is one of three
    envelopes — HTTP 200 with [success: true], [code: 0] and data that is
    not [null]; HTTP 200 with [success: false], [code: 1001] and
    [data: null]; HTTP 404 with [success: false], [code: 404] and no data —
    or the body of the statistics, which only the statistics route sends. *)
Theorem responses_have_three_shapes (e : Event) (w : World)
    (resp : Response) :
  fst (step rnd clk fl e w) = Some resp ->
  envelope_shape resp
  /\ ((exists n m q, resp = StatsBody n m q) <-> e = Incoming GET_stats).
Proof.
  destruct e as [req|i]; simpl.
  - intros H. destruct (handle_reply_shape req w resp H)
      as [[-> Hreq]|[-> (n & m & q & ->)]].
    + split; [right; right; now repeat split|]. split.
      * intros (n & m & q & Heq). discriminate Heq.
      * intros [= ->]. contradiction.
    + split; [exact I|]. split; [reflexivity|]. intros _. now exists n, m, q.
  - destruct (timers w !! i) as [[d cb]|]; [|discriminate].
    intros H. destruct (run_callback_shape cb _ resp H) as [Hsh Hns].
    split; [exact Hsh|]. split.
    + intros (n & m & q & Heq). now destruct (Hns n m q).
    + discriminate.
Qed.

Lemma run_callback_replies (cb : Callback) (w : World) :
  (forall l, captured cb = Some l -> is_Some (heap w !! l)) ->
  exists resp w',
    run_callback clk cb w = (Some resp, w') /\ timers w' = timers w.
Proof.
  intros Hcap. destruct w as [h os ps ts ri ci].
  destruct cb as [l|l|l id rf ok|l|]; simpl in *.
  - destruct (Hcap l eq_refl) as [o Ho]. unfold reply_with_order. exec.
    rewrite Ho. now eexists _, _.
  - destruct (Hcap l eq_refl) as [o Ho]. unfold reply_with_order. exec.
    rewrite Ho. now eexists _, _.
  - destruct (Hcap l eq_refl) as [o Ho]. unfold validate_callback.
    destruct (rf || negb ok); [now eexists _, _|].
    exec. rewrite list_alter_alter_eq, list_lookup_alter_eq, Ho. simpl.
    now eexists _, _.
  - destruct (Hcap l eq_refl) as [o Ho]. unfold query_callback. exec.
    rewrite Ho. now eexists _, _.
  - now eexists _, _.
Qed.

(** X11: every request is answered once.  A handler either answers at once,
    leaving the world as it was, or schedules exactly one callback; and in
    every state the server can reach, a pending callback that runs does
    answer, and leaves the list of pending callbacks without itself. *)
Theorem every_request_answered_once :
  (forall req w,
      (exists resp, handle rnd clk fl req w = (Some resp, w))
      \/ (exists d cb w', handle rnd clk fl req w = (None, w')
                          /\ timers w' = timers w ++ [(d, cb)]))
  /\ (forall es i d cb,
        timers (run rnd clk fl es empty_world) !! i = Some (d, cb) ->
        exists resp w',
          step rnd clk fl (TimerFires i) (run rnd clk fl es empty_world)
          = (Some resp, w')
          /\ timers w' = delete i (timers (run rnd clk fl es empty_world))).
Proof.
  split.
  - intros req w. destruct w as [h os ps ts ri ci].
    destruct req as [a s b|s|k pw|s| |]; simpl.
    + right. unfold payment_create, generateOrderId. exec. now eexists _, _, _.
    + unfold payment_info. exec. destruct (os !! s); simpl.
      * right. now eexists _, _, _.
      * left. now eexists.
    + unfold payment_validate. exec.
      destruct k as [| | | |s| |]; simpl; try (left; now eexists).
      destruct (os !! s); simpl.
      * right. now eexists _, _, _.
      * left. now eexists.
    + unfold payment_query. exec. destruct (os !! s); simpl.
      * right. now eexists _, _, _.
      * left. now eexists.
    + right. unfold security_check. exec. now eexists _, _, _.
    + left. now eexists.
  - intros es i d cb Hi.
    destruct (well_formed_run rnd clk fl es empty_world well_formed_empty)
      as ((_ & Htim) & _).
    set (w := run rnd clk fl es empty_world) in *.
    pose proof (Forall_lookup_1 _ _ _ _ Htim Hi) as Hcap. simpl in Hcap.
    simpl. rewrite Hi.
    destruct (run_callback_replies cb (with_timers (delete i (timers w)) w))
      as (resp & w' & Hrun & Ht).
    { intros l Hl. destruct w; now apply Hcap. }
    exists resp, w'. split; [exact Hrun|]. rewrite Ht. now destruct w.
Qed.

(** ** What the statistics count *)

Lemma count_step (e : Event) (w : World) :
  well_formed w ->
  let w' := snd (step rnd clk fl e w) in
  let c := if is_create e then 1 else 0 in
  let k := if is_settlement e w then 1 else 0 in
  size (orders w') <= size (orders w) + c
  /\ size (payments w') <= size (payments w) + k
  /\ (fresh_step rnd clk e w = true ->
      size (orders w') = size (orders w) + c
      /\ size (payments w') = size (payments w) + k).
Proof.
  intros ((_ & Htim) & _). cbv zeta. destruct e as [req|i].
  - destruct req as [a s b| | | | |];
      try (match goal with
           | |- context [step rnd clk fl (Incoming ?r) w] =>
               destruct (handle_read_only rnd clk fl r w) as (_ & Ho & Hp);
               [intros; discriminate|]
           end;
           simpl in Ho, Hp |- *; try rewrite Ho; try rewrite Hp; lia).
    destruct w as [h os ps ts ri ci]. simpl.
    unfold payment_create, generateOrderId. exec.
    rewrite map_size_insert.
    destruct (os !! _) eqn:E; simpl; (split; [lia|split; [lia|]]).
    + intros Hf. discriminate Hf.
    + intros _. lia.
  - simpl is_create. unfold is_settlement, fresh_step.
    destruct (timers w !! i) as [[d cb]|] eqn:Hi.
    + destruct (accepting cb) eqn:Ha.
      * destruct (accepting_true cb Ha) as (l & id & ->).
        destruct (Forall_lookup_1 _ _ _ _ Htim Hi l eq_refl) as [o Ho].
        rewrite (settlement_step rnd clk fl i w d l id o Hi Ho). simpl.
        rewrite map_size_insert. unfold next_paymentId.
        destruct (payments w !! _) eqn:E; simpl; (split; [lia|split; [lia|]]).
        -- intros Hf. discriminate Hf.
        -- intros _. lia.
      * destruct (step_timer_read_only rnd clk fl i w) as (_ & -> & ->).
        { intros d' cb'. rewrite Hi. now intros [= <- <-]. }
        lia.
    + simpl. rewrite Hi. simpl. lia.
Qed.

(** X12: after any sequence of events from the start, the number of orders
    that [Stats] reports is at most the number of [CreateOrder] requests and
    the number of payments at most the number of accepted validations that
    were carried out; both are equal to these when no generated identifier
    repeated a key of its store. *)
Theorem stats_count_requests (es : list Event) :
  let w := run rnd clk fl es empty_world in
  size (orders w) <= created_count es
  /\ size (payments w) <= settled_count rnd clk fl es empty_world
  /\ (fresh_run rnd clk fl es empty_world = true ->
      size (orders w) = created_count es
      /\ size (payments w) = settled_count rnd clk fl es empty_world).
Proof.
  assert (H : forall es w,
             well_formed w ->
             size (orders (run rnd clk fl es w))
             <= size (orders w) + created_count es
             /\ size (payments (run rnd clk fl es w))
                <= size (payments w) + settled_count rnd clk fl es w
             /\ (fresh_run rnd clk fl es w = true ->
                 size (orders (run rnd clk fl es w))
                 = size (orders w) + created_count es
                 /\ size (payments (run rnd clk fl es w))
                    = size (payments w) + settled_count rnd clk fl es w)).
  { clear es. induction es as [|e es IH]; intros w Hwf; simpl.
    - split; [lia|]. split; [lia|]. intros _. lia.
    - destruct (count_step e w Hwf) as (c1 & c2 & c3).
      destruct (IH (snd (step rnd clk fl e w))) as (i1 & i2 & i3).
      { apply (well_formed_effect rnd clk e w); [apply step_effect|exact Hwf]. }
      split; [lia|]. split; [lia|].
      intros Hf. apply andb_true_iff in Hf as [Hf1 Hf2].
      destruct (c3 Hf1) as [c4 c5]. destruct (i3 Hf2) as [i4 i5]. lia. }
  cbv zeta. destruct (H es empty_world well_formed_empty) as (h1 & h2 & h3).
  change (size (orders empty_world)) with (size (∅ : gmap string nat)) in *.
  change (size (payments empty_world))
    with (size (∅ : gmap string Payment.t)) in *.
  rewrite !map_size_empty in *. simpl in *.
  split; [exact h1|]. split; [exact h2|exact h3].
Qed.

(** ** Reading a stored order *)

(** X13: for an identifier under which an order is stored, [GetOrderInfo]
    returns that order as it is now, status and [payTime] included, and
    [QueryResult] returns its identifier, status, amount and [payTime];
    neither reads the clock, and each draws one random number, for its
    delay. *)
Theorem read_stored_order (s : string) (w : World) (l : ref) (o : Order.t) :
  stored w s l o ->
  GetOrderInfo rnd clk fl s w =
    (Some (Envelope 200 true 0 None (Some (DataOrder o))),
     with_random_ix (S (random_ix w)) w)
  /\ QueryResult rnd clk fl s w =
       (Some (Envelope 200 true 0 None
                (Some (DataQuery (Order.orderId o) (Order.status o)
                                 (Order.amount o) (Order.payTime o)))),
        with_random_ix (S (random_ix w)) w).
Proof.
  intros Hst. split.
  - exact (GetOrderInfo_run rnd clk fl s w l o Hst).
  - exact (QueryResult_run rnd clk fl s w l o Hst).
Qed.

End Further.

(** ** The further theorems at sample inputs *)

Lemma half_random_passes (n : nat) : (5 # 100 <= half_random n)%Q.
Proof. unfold half_random. lra. Qed.

Lemma one_order_stored :
  exists o, stored one_order "ORDER1700000000000i" 0 o.
Proof.
  destruct (heap one_order !! 0%nat) as [o|] eqn:E;
    [|vm_compute in E; discriminate].
  exists o. split; [vm_compute; reflexivity|exact E].
Defined.

Lemma create_validate_query_witness :
  (5 # 100 <= half_random 2)%Q
  /\ exists o p w1 w2,
      CreateOrder half_random ticking_clock no_rounding (JNum 100) JUndefined JUndefined
        empty_world
      = (Some (Envelope 200 true 0 (Some "订单创建成功")
                 (Some (DataOrder o))), w1)
      /\ ValidateCredential half_random ticking_clock no_rounding
           (JStr (Order.orderId o)) (JStr "123456") w1
         = (Some (Envelope 200 true 0 (Some "支付成功")
                    (Some (DataPayment p))), w2)
      /\ Payment.amount p = Order.amount o.
Proof.
  split; [apply half_random_passes|].
  destruct (create_validate_query half_random ticking_clock no_rounding
              (JNum 100) JUndefined JUndefined empty_world
              (half_random_passes 2))
    as (o & p & t & w1 & w2 & H1 & H2 & _ & H3 & _).
  exists o, p, w1, w2. exact (conj H1 (conj H2 H3)).
Defined.

Lemma rejected_then_accepted_witness :
  exists o o' w1 w2 p,
    stored one_order "ORDER1700000000000i" 0 o
    /\ JStr "000000" <> JStr "123456"
    /\ (5 # 100 <= half_random (S (S (random_ix one_order))))%Q
    /\ same_stores one_order w1
    /\ ValidateCredential half_random ticking_clock no_rounding
         (JStr "ORDER1700000000000i") (JStr "123456") w1
       = (Some (Envelope 200 true 0 (Some "支付成功")
                  (Some (DataPayment p))), w2)
    /\ stored w2 "ORDER1700000000000i" 0 o'
    /\ Order.status o' = success.
Proof.
  destruct one_order_stored as [o Hst].
  assert (Hpw : JStr "000000" <> JStr "123456") by discriminate.
  destruct (rejected_then_accepted half_random ticking_clock no_rounding
              "ORDER1700000000000i" (JStr "000000") one_order 0 o Hst Hpw
              (half_random_passes _))
    as (w1 & w2 & p & o' & _ & H2 & H3 & H4 & H5 & _).
  exists o, o', w1, w2, p.
  split; [exact Hst|]. split; [exact Hpw|].
  split; [apply half_random_passes|].
  exact (conj H2 (conj H3 (conj H4 H5))).
Defined.

Lemma info_reply_after_settlement_witness :
  exists o t,
    stored one_order "ORDER1700000000000i" 0 o
    /\ (5 # 100 <= half_random (S (random_ix one_order)))%Q
    /\ fst (step half_random ticking_clock no_rounding
              (TimerFires (length (timers one_order)))
              (run half_random ticking_clock no_rounding
                 [ Incoming (GET_payment_info "ORDER1700000000000i");
                   Incoming (POST_payment_validate
                               (JStr "ORDER1700000000000i") (JStr "123456"));
                   TimerFires (S (length (timers one_order))) ] one_order))
       = Some (Envelope 200 true 0 None
                 (Some (DataOrder (set_payTime t (set_status success o))))).
Proof.
  destruct one_order_stored as [o Hst].
  destruct (info_reply_after_settlement half_random ticking_clock no_rounding
              "ORDER1700000000000i" one_order 0 o Hst (half_random_passes _))
    as (t & _ & H).
  exists o, t. split; [exact Hst|]. split; [apply half_random_passes|exact H].
Defined.

Lemma order_fields_kept_witness :
  exists o o',
    heap one_order !! 0%nat = Some o
    /\ heap (run half_random ticking_clock no_rounding settled_twice one_order) !! 0%nat
       = Some o'
    /\ later_state o o'.
Proof.
  destruct one_order_stored as [o [_ Hl]].
  destruct (order_fields_kept half_random ticking_clock no_rounding settled_twice
              one_order 0 o Hl) as (o' & Hl' & Hls).
  exists o, o'. exact (conj Hl (conj Hl' Hls)).
Defined.

Lemma payment_records_sound_witness :
  exists p,
    payments (run half_random ticking_clock no_rounding settled_twice empty_world)
      !! "PAY1700000000003" = Some p
    /\ payment_record_ok
         (run half_random ticking_clock no_rounding settled_twice empty_world)
         "PAY1700000000003" p.
Proof.
  destruct (payments (run half_random ticking_clock no_rounding settled_twice empty_world)
              !! "PAY1700000000003") as [p|] eqn:E;
    [|vm_compute in E; discriminate].
  exists p. split; [reflexivity|].
  exact (payment_records_sound half_random ticking_clock no_rounding settled_twice
           "PAY1700000000003" p E).
Defined.

Lemma settlement_payment_key_witness :
  let w := snd (handle half_random ticking_clock no_rounding
                  (POST_payment_validate (JStr "ORDER1700000000000i")
                                         (JStr "123456")) one_order) in
  exists d o p,
    timers w !! 0%nat
    = Some (d, ValidateReply 0 "ORDER1700000000000i" false true)
    /\ heap w !! 0%nat = Some o
    /\ payments (snd (step half_random ticking_clock no_rounding (TimerFires 0) w))
         !! ("PAY" +:+ pretty (ticking_clock (S (clock_ix w)))) = Some p
    /\ Payment.amount p = Order.amount o.
Proof.
  cbv zeta.
  set (w := snd (handle half_random ticking_clock no_rounding
                   (POST_payment_validate (JStr "ORDER1700000000000i")
                                          (JStr "123456")) one_order)).
  destruct (heap w !! 0%nat) as [o|] eqn:El;
    [|vm_compute in El; discriminate].
  assert (Hi : timers w !! 0%nat
               = Some ((half_random 3 * 400 + 100)%Q,
                       ValidateReply 0 "ORDER1700000000000i" false true))
    by (vm_compute; reflexivity).
  destruct (settlement_payment_key half_random ticking_clock no_rounding
              0 w _ 0 "ORDER1700000000000i" o Hi El)
    as ((p & Hp & _ & Ha) & _).
  exists (half_random 3 * 400 + 100)%Q, o, p.
  split; [exact Hi|]. split; [reflexivity|]. split; [exact Hp|exact Ha].
Defined.

Lemma CreateOrder_order_key_witness :
  orders (snd (CreateOrder half_random frozen_clock no_rounding JNull JNull JNull
                 one_order)) !! "ORDER1700000000000i" = Some 1%nat
  /\ size (orders (snd (CreateOrder half_random frozen_clock no_rounding JNull JNull JNull
                          one_order))) = 1%nat.
Proof.
  destruct (CreateOrder_order_key half_random frozen_clock no_rounding JNull JNull JNull
              one_order) as (H1 & _ & _ & _ & H2 & _).
  split; [exact H1|]. rewrite H2. vm_compute. reflexivity.
Defined.

Lemma responses_have_three_shapes_witness :
  fst (step half_random ticking_clock no_rounding (Incoming GET_stats) one_order)
  = Some (StatsBody 1 0 0%Q)
  /\ envelope_shape (StatsBody 1 0 0%Q).
Proof.
  assert (H : fst (step half_random ticking_clock no_rounding (Incoming GET_stats)
                     one_order) = Some (StatsBody 1 0 0%Q))
    by (vm_compute; reflexivity).
  split; [exact H|].
  exact (proj1 (responses_have_three_shapes half_random ticking_clock no_rounding
                  (Incoming GET_stats) one_order _ H)).
Defined.

Lemma every_request_answered_once_witness :
  let es := [Incoming (POST_payment_create (JNum 100) JUndefined JUndefined)] in
  exists d cb resp w',
    timers (run half_random ticking_clock no_rounding es empty_world) !! 0%nat
    = Some (d, cb)
    /\ step half_random ticking_clock no_rounding (TimerFires 0)
         (run half_random ticking_clock no_rounding es empty_world) = (Some resp, w').
Proof.
  cbv zeta.
  assert (Hi : timers (run half_random ticking_clock no_rounding
                         [Incoming (POST_payment_create (JNum 100) JUndefined
                                      JUndefined)] empty_world) !! 0%nat
               = Some ((half_random 1 * 150 + 50)%Q, CreateReply 0))
    by (vm_compute; reflexivity).
  destruct (proj2 (every_request_answered_once half_random ticking_clock no_rounding)
              _ 0%nat _ _ Hi) as (resp & w' & Hstep & _).
  eexists _, _, resp, w'. exact (conj Hi Hstep).
Defined.

Lemma stats_count_requests_witness :
  fresh_run half_random ticking_clock no_rounding settled_twice empty_world = true
  /\ size (orders (run half_random ticking_clock no_rounding settled_twice empty_world))
     = created_count settled_twice
  /\ size (payments (run half_random ticking_clock no_rounding settled_twice empty_world))
     = settled_count half_random ticking_clock no_rounding settled_twice empty_world.
Proof.
  assert (H : fresh_run half_random ticking_clock no_rounding settled_twice empty_world
              = true) by (vm_compute; reflexivity).
  split; [exact H|].
  exact (proj2 (proj2 (stats_count_requests half_random ticking_clock no_rounding
                         settled_twice)) H).
Defined.

Lemma read_stored_order_witness :
  exists o,
    stored one_order "ORDER1700000000000i" 0 o
    /\ fst (GetOrderInfo half_random ticking_clock no_rounding "ORDER1700000000000i"
              one_order)
       = Some (Envelope 200 true 0 None (Some (DataOrder o))).
Proof.
  destruct one_order_stored as [o Hst]. exists o. split; [exact Hst|].
  exact (f_equal fst (proj1 (read_stored_order half_random ticking_clock no_rounding
                               "ORDER1700000000000i" one_order 0 o Hst))).
Defined.
